(** * terraform-provider-external: the [exec_persisted] resource

    A shallow embedding of [internal/provider/provider.go]
    ([programResource.Create], [Read], [Update], [Delete]) together with the
    parts of the Go runtime and of terraform-plugin-framework that the
    resource calls: [strings.Replace], [fmt.Sprintf("%q")] (that is
    [strconv.Quote]), [utf8.DecodeRuneInString], [json.Marshal] of a
    [map[string]string], [json.Unmarshal] into a [map[string]interface{}],
    [types.MapValueFrom] and the diagnostics container.

    Go strings are byte strings; they are modelled by [string], one [ascii]
    per byte.  The operating system (executable lookup, running the child
    process) is a record of oracles, [Host]. *)

From Stdlib Require Import ZArith Ascii String List Bool Lia DecimalString.
From stdpp Require Import gmap strings list fin_maps sorting.

Open Scope Z_scope.

(** ** Bytes and UTF-8 ([unicode/utf8]) *)

Module Utf8.

Definition byteZ (c : ascii) : Z := Z.of_N (N_of_ascii c).
Definition ofZ (z : Z) : ascii := ascii_of_N (Z.to_N (z mod 256)).

Definition RuneError : Z := 0xFFFD.
Definition RuneSelf : Z := 0x80.
Definition MaxRune : Z := 0x10FFFF.

Definition within (lo hi : Z) (c : ascii) : bool :=
  (lo <=? byteZ c) && (byteZ c <=? hi).

(** Low six bits of a continuation byte. *)
Definition cont (c : ascii) : Z := Z.land (byteZ c) 0x3F.

(** [utf8.DecodeRuneInString]: the first rune of [s] and its width in
    bytes; [(RuneError, 0)] on the empty string and [(RuneError, 1)] on an
    ill-formed sequence (overlong forms, surrogates and values above
    [MaxRune] are ill-formed). *)
Definition DecodeRuneInString (s : string) : Z * nat :=
  match s with
  | EmptyString => (RuneError, 0%nat)
  | String c0 t =>
    let b0 := byteZ c0 in
    if b0 <? RuneSelf then (b0, 1%nat)
    else if within 0xC2 0xDF c0 then
      match t with
      | String c1 _ =>
        if within 0x80 0xBF c1
        then (Z.lor (Z.shiftl (Z.land b0 0x1F) 6) (cont c1), 2%nat)
        else (RuneError, 1%nat)
      | _ => (RuneError, 1%nat)
      end
    else if within 0xE0 0xEF c0 then
      let lo := if b0 =? 0xE0 then 0xA0 else 0x80 in
      let hi := if b0 =? 0xED then 0x9F else 0xBF in
      match t with
      | String c1 (String c2 _) =>
        if within lo hi c1 && within 0x80 0xBF c2
        then (Z.lor (Z.shiftl (Z.land b0 0x0F) 12)
                (Z.lor (Z.shiftl (cont c1) 6) (cont c2)), 3%nat)
        else (RuneError, 1%nat)
      | _ => (RuneError, 1%nat)
      end
    else if within 0xF0 0xF4 c0 then
      let lo := if b0 =? 0xF0 then 0x90 else 0x80 in
      let hi := if b0 =? 0xF4 then 0x8F else 0xBF in
      match t with
      | String c1 (String c2 (String c3 _)) =>
        if within lo hi c1 && within 0x80 0xBF c2 && within 0x80 0xBF c3
        then (Z.lor (Z.shiftl (Z.land b0 0x07) 18)
                (Z.lor (Z.shiftl (cont c1) 12)
                   (Z.lor (Z.shiftl (cont c2) 6) (cont c3))), 4%nat)
        else (RuneError, 1%nat)
      | _ => (RuneError, 1%nat)
      end
    else (RuneError, 1%nat)
  end.

Definition isSurrogate (r : Z) : bool := (0xD800 <=? r) && (r <=? 0xDFFF).

(** [utf8.ValidRune]. *)
Definition ValidRune (r : Z) : bool :=
  (0 <=? r) && (r <=? MaxRune) && negb (isSurrogate r).

Definition tail6 (r : Z) (shift : Z) : ascii :=
  ofZ (Z.lor 0x80 (Z.land (Z.shiftr r shift) 0x3F)).

(** [utf8.AppendRune] onto the empty buffer: the UTF-8 encoding of [r],
    that of [RuneError] when [r] is not a valid rune. *)
Definition EncodeRune (r : Z) : string :=
  let r := if ValidRune r then r else RuneError in
  if r <=? 0x7F then String (ofZ r) EmptyString
  else if r <=? 0x7FF then
    String (ofZ (Z.lor 0xC0 (Z.shiftr r 6))) (String (tail6 r 0) EmptyString)
  else if r <=? 0xFFFF then
    String (ofZ (Z.lor 0xE0 (Z.shiftr r 12)))
      (String (tail6 r 6) (String (tail6 r 0) EmptyString))
  else
    String (ofZ (Z.lor 0xF0 (Z.shiftr r 18)))
      (String (tail6 r 12) (String (tail6 r 6) (String (tail6 r 0) EmptyString))).

End Utf8.

(** ** [strconv.Quote], which is what [fmt.Sprintf("%q", s)] prints *)

Module Strconv.

Import Utf8.

(** The double quote, byte 0x22. *)
Definition dquote : ascii := "034"%char.

Definition lowerhex (n : Z) : string :=
  String.substring (Z.to_nat (Z.land n 0xF)) 1 "0123456789abcdef".

(** The hexadecimal digits of [r] from bit [4 * (n - 1)] down to bit 0. *)
Fixpoint hexDigits (n : nat) (r : Z) : string :=
  match n with
  | O => EmptyString
  | S k => lowerhex (Z.shiftr r (4 * Z.of_nat k)) +:+ hexDigits k r
  end.

Section Quoting.

(** [strconv.IsPrint] decides the runes up to U+00FF by comparison and
    the others from tables generated from the Unicode database; the
    tables are a parameter. *)
Variable isPrintWide : Z -> bool.

Definition IsPrint (r : Z) : bool :=
  if r <=? 0xFF then
    if (0x20 <=? r) && (r <=? 0x7E) then true
    else if (0xA1 <=? r) && (r <=? 0xFF) then negb (r =? 0xAD)
    else false
  else isPrintWide r.

(** [appendEscapedRune] where [quote] is the double quote and
    [ASCIIonly] and [graphicOnly] are false. *)
Definition appendEscapedRune (r : Z) : string :=
  if (r =? 0x22) || (r =? 0x5C) then String "\" (String (ofZ r) EmptyString)
  else if IsPrint r then EncodeRune r
  else if r =? 0x07 then "\a"
  else if r =? 0x08 then "\b"
  else if r =? 0x0C then "\f"
  else if r =? 0x0A then "\n"
  else if r =? 0x0D then "\r"
  else if r =? 0x09 then "\t"
  else if r =? 0x0B then "\v"
  else if (r <? 0x20) || (r =? 0x7F) then "\x" +:+ hexDigits 2 r
  else if negb (ValidRune r) then "\u" +:+ hexDigits 4 RuneError
  else if r <? 0x10000 then "\u" +:+ hexDigits 4 r
  else "\U" +:+ hexDigits 8 r.

(** The loop of [appendQuotedWith].  [skip] counts the bytes of the
    current rune that are still to be stepped over ([s = s[width:]]). *)
Fixpoint quoteLoop (skip : nat) (s : string) : string :=
  match s with
  | EmptyString => EmptyString
  | String c t =>
    match skip with
    | S k => quoteLoop k t
    | O =>
      let '(r, width) :=
        if byteZ c >=? RuneSelf then DecodeRuneInString s
        else (byteZ c, 1%nat) in
      (if (width =? 1)%nat && (r =? RuneError)
       then "\x" +:+ hexDigits 2 (byteZ c)
       else appendEscapedRune r)
      +:+ quoteLoop (width - 1) t
    end
  end.

Definition Quote (s : string) : string :=
  String dquote (quoteLoop 0 s +:+ String dquote EmptyString).

End Quoting.

End Strconv.

(** ** [strings.Replace] *)

Module Strings.

Import Utf8.

Definition spend (budget : option nat) : option nat :=
  match budget with
  | Some (S k) => Some k
  | b => b
  end.

Definition exhausted (budget : option nat) : bool :=
  match budget with
  | Some O => true
  | _ => false
  end.

(** Replacement of the first [budget] non-overlapping occurrences of a
    non-empty [old], all of them when [budget] is [None].  After a match
    the remaining [length old - 1] bytes of the occurrence are dropped. *)
Fixpoint replaceLoop (old new : string) (budget : option nat)
    (skip : nat) (s : string) : string :=
  match s with
  | EmptyString => EmptyString
  | String c t =>
    match skip with
    | S k => replaceLoop old new budget k t
    | O =>
      if negb (exhausted budget) && String.prefix old s
      then new +:+ replaceLoop old new (spend budget) (String.length old - 1) t
      else String c (replaceLoop old new budget 0 t)
    end
  end.

(** With an empty [old], [new] is inserted before every rune and at the
    end, as long as the budget lasts; [skip] counts the bytes of the
    current rune still to be copied. *)
Fixpoint insertLoop (new : string) (budget : option nat)
    (skip : nat) (s : string) : string :=
  match s with
  | EmptyString => if exhausted budget then EmptyString else new
  | String c t =>
    match skip with
    | S k => String c (insertLoop new budget k t)
    | O =>
      if exhausted budget then s
      else new +:+ String c
             (insertLoop new (spend budget) (snd (DecodeRuneInString s) - 1) t)
    end
  end.

(** [strings.Replace(s, old, new, n)]; a negative [n] puts no limit on
    the number of replacements. *)
Definition Replace (s old new : string) (n : Z) : string :=
  if String.eqb old new || (n =? 0) then s
  else
    let budget := if n <? 0 then None else Some (Z.to_nat n) in
    match old with
    | EmptyString => insertLoop new budget 0 s
    | _ => replaceLoop old new budget 0 s
    end.

End Strings.

(** ** Go maps with string keys *)

Module GoMap.

(** A [map[string]V]: the nil map or a map created with [make].  Reading
    a nil map finds nothing; the program never writes to one. *)
Inductive t (V : Type) : Type :=
| Nil
| Make (m : gmap string V).
Arguments Nil {V}.
Arguments Make {V} m.

Definition entries {V} (m : t V) : gmap string V :=
  match m with
  | Nil => ∅
  | Make g => g
  end.

(** [m[k] = v]. *)
Definition set {V} (k : string) (v : V) (m : t V) : t V :=
  Make (<[k := v]> (entries m)).

Fixpoint insertByKey {V} (kv : string * V) (l : list (string * V))
    : list (string * V) :=
  match l with
  | [] => [kv]
  | kv' :: l' =>
    if String.leb (fst kv) (fst kv') then kv :: l
    else kv' :: insertByKey kv l'
  end.

(** The entries in increasing order of their keys, compared byte by byte
    (the order [sort.Slice] with [<] on the keys puts them in). *)
Definition sorted {V} (m : gmap string V) : list (string * V) :=
  foldr insertByKey [] (map_to_list m).

End GoMap.

(** ** [encoding/json] *)

Module Json.

Import Utf8.
Import Strconv.

(** *** [json.Marshal] of a [map[string]string] *)

(** Bytes that [encodeState.string] copies as they are when HTML escaping
    is on, which is [Marshal]'s setting: the ASCII bytes from the space
    on, except the double quote, the backslash and [<], [>], [&]. *)
Definition htmlSafe (b : Z) : bool :=
  (0x20 <=? b) && (b <? RuneSelf)
  && negb ((b =? 0x22) || (b =? 0x5C) || (b =? 0x3C) || (b =? 0x3E) || (b =? 0x26)).

(** The escape of an ASCII byte that is not copied.  (Since Go 1.22 the
    backspace and the form feed have short escapes of their own.) *)
Definition escapeByte (c : ascii) : string :=
  let b := byteZ c in
  if (b =? 0x5C) || (b =? 0x22) then String "\" (String c EmptyString)
  else if b =? 0x0A then "\n"
  else if b =? 0x0D then "\r"
  else if b =? 0x09 then "\t"
  else "\u00" +:+ hexDigits 2 b.

(** The body of a JSON string literal.  [skip] counts the bytes of the
    current rune still to be stepped over; they are copied when [keep]
    is set and dropped when the rune has been written as an escape. *)
Fixpoint encodeLoop (skip : nat) (keep : bool) (s : string) : string :=
  match s with
  | EmptyString => EmptyString
  | String c t =>
    match skip with
    | S k =>
      if keep then String c (encodeLoop k keep t) else encodeLoop k keep t
    | O =>
      if byteZ c <? RuneSelf then
        (if htmlSafe (byteZ c) then String c EmptyString else escapeByte c)
        +:+ encodeLoop 0 true t
      else
        let '(r, size) := DecodeRuneInString s in
        if (r =? RuneError) && (size =? 1)%nat
        then "\ufffd" +:+ encodeLoop 0 true t
        else if (r =? 0x2028) || (r =? 0x2029)
        then "\u202" +:+ lowerhex r +:+ encodeLoop (size - 1) false t
        else String c (encodeLoop (size - 1) true t)
    end
  end.

Definition encodeString (s : string) : string :=
  String dquote (encodeLoop 0 true s +:+ String dquote EmptyString).

Fixpoint encodeMembers (kvs : list (string * string)) : string :=
  match kvs with
  | [] => EmptyString
  | [(k, v)] => encodeString k +:+ ":" +:+ encodeString v
  | (k, v) :: rest =>
    encodeString k +:+ ":" +:+ encodeString v +:+ "," +:+ encodeMembers rest
  end.

(** [json.Marshal(m)] for [m] of type [map[string]string]: the bytes and
    the error, which for this type is always nil. *)
Definition Marshal (m : GoMap.t string) : string * option string :=
  match m with
  | GoMap.Nil => ("null", None)
  | GoMap.Make g => ("{" +:+ encodeMembers (GoMap.sorted g) +:+ "}", None)
  end.

(** *** [json.Unmarshal] into a [map[string]interface{}] *)

(** A JSON text as the decoder sees it.  A number keeps its literal; what
    ends up in an [interface{}] is nil, a bool, a float64, a string, a
    [[]interface{}] or a [map[string]interface{}], one for each kind. *)
#[local] Set Warnings "-register-all".
Inductive value : Type :=
| Null
| Bool (b : bool)
| Number (lit : string)
| Str (s : string)
| Array (items : list value)
| Object (members : list (string * value)).

Inductive error : Type :=
| SyntaxError
| UnmarshalTypeError (what : string) (type : string).

(** [err.Error()].  For a syntax error Go's text goes on to name the
    offending byte and what the scanner was looking for. *)
Definition Error (e : error) : string :=
  match e with
  | SyntaxError => "invalid character"
  | UnmarshalTypeError what type =>
    "json: cannot unmarshal " +:+ what +:+ " into Go value of type " +:+ type
  end.

Definition isSpace (c : ascii) : bool :=
  let b := byteZ c in (b =? 0x20) || (b =? 0x09) || (b =? 0x0D) || (b =? 0x0A).

Fixpoint skipSpace (s : string) : string :=
  match s with
  | String c t => if isSpace c then skipSpace t else s
  | EmptyString => s
  end.

Definition isDigit (c : ascii) : bool := within 0x30 0x39 c.

Definition hexVal (c : ascii) : option Z :=
  let b := byteZ c in
  if within 0x30 0x39 c then Some (b - 0x30)
  else if within 0x61 0x66 c then Some (b - 0x61 + 10)
  else if within 0x41 0x46 c then Some (b - 0x41 + 10)
  else None.

(** The value of four hexadecimal digits at the head of [s]. *)
Definition hex4 (s : string) : option Z :=
  match s with
  | String a (String b (String c (String d _))) =>
    match hexVal a, hexVal b, hexVal c, hexVal d with
    | Some x, Some y, Some z, Some w => Some (((x * 16 + y) * 16 + z) * 16 + w)
    | _, _, _, _ => None
    end
  | _ => None
  end.

(** [getu4]: the code unit of a [\uXXXX] escape at the head of [s]. *)
Definition getu4 (s : string) : option Z :=
  match s with
  | String "\" (String "u" t) => hex4 t
  | _ => None
  end.

(** [utf16.DecodeRune]. *)
Definition utf16Decode (r1 r2 : Z) : Z :=
  if (0xD800 <=? r1) && (r1 <? 0xDC00) && (0xDC00 <=? r2) && (r2 <? 0xE000)
  then Z.lor (Z.shiftl (r1 - 0xD800) 10) (r2 - 0xDC00) + 0x10000
  else RuneError.

Definition emit (piece : string) (k : option (string * string))
    : option (string * string) :=
  match k with
  | Some (body, rest) => Some (piece +:+ body, rest)
  | None => None
  end.

(** A string literal from just after its opening quote: the string it
    denotes and the input after the closing quote.  Escapes are resolved
    as [unquote] does, unpaired surrogates and ill-formed UTF-8 become
    U+FFFD; a raw control byte or a bad escape is a syntax error. *)
Fixpoint stringBody (skip : nat) (s : string) : option (string * string) :=
  match s with
  | EmptyString => None
  | String c t =>
    match skip with
    | S k => stringBody k t
    | O =>
      if Ascii.eqb c dquote then Some (EmptyString, t)
      else if Ascii.eqb c "\" then
        match t with
        | String e t' =>
          let simple (b : Z) := emit (String (ofZ b) EmptyString) (stringBody 1 t) in
          if Ascii.eqb e dquote then simple 0x22
          else if Ascii.eqb e "\" then simple 0x5C
          else if Ascii.eqb e "/" then simple 0x2F
          else if Ascii.eqb e "b" then simple 0x08
          else if Ascii.eqb e "f" then simple 0x0C
          else if Ascii.eqb e "n" then simple 0x0A
          else if Ascii.eqb e "r" then simple 0x0D
          else if Ascii.eqb e "t" then simple 0x09
          else if Ascii.eqb e "u" then
            match hex4 t' with
            | None => None
            | Some rr =>
              if isSurrogate rr then
                match getu4 (String.substring 4 (String.length t') t') with
                | Some rr1 =>
                  if utf16Decode rr rr1 =? RuneError
                  then emit (EncodeRune RuneError) (stringBody 5 t)
                  else emit (EncodeRune (utf16Decode rr rr1)) (stringBody 11 t)
                | None => emit (EncodeRune RuneError) (stringBody 5 t)
                end
              else emit (EncodeRune rr) (stringBody 5 t)
            end
          else None
        | EmptyString => None
        end
      else if byteZ c <? 0x20 then None
      else if byteZ c <? RuneSelf then emit (String c EmptyString) (stringBody 0 t)
      else
        let '(r, size) := DecodeRuneInString s in
        emit (EncodeRune r) (stringBody (size - 1) t)
    end
  end.

Fixpoint digits (s : string) : string * string :=
  match s with
  | String c t =>
    if isDigit c then let '(ds, r) := digits t in (String c ds, r)
    else (EmptyString, s)
  | EmptyString => (EmptyString, s)
  end.

(** A number literal at the head of [s], split into its sign, integer
    digits, fraction digits and exponent (sign and digits). *)
Record numeral : Type :=
  { negative : bool; intPart : string; fracPart : string;
    expNegative : bool; expPart : string }.

Definition numberLit (s : string) : option (numeral * string) :=
  let '(neg, s1) :=
    match s with
    | String "-" t => (true, t)
    | _ => (false, s)
    end in
  let '(ip, s2) :=
    match s1 with
    | String "0" t => ("0", t)
    | _ => digits s1
    end in
  if String.eqb ip EmptyString then None
  else
    let frac :=
      match s2 with
      | String "." t =>
        let '(fp, r) := digits t in
        if String.eqb fp EmptyString then None else Some (fp, r)
      | _ => Some (EmptyString, s2)
      end in
    match frac with
    | None => None
    | Some (fp, s3) =>
      let mk en ep := {| negative := neg; intPart := ip; fracPart := fp;
                         expNegative := en; expPart := ep |} in
      match s3 with
      | String e t =>
        if Ascii.eqb e "e" || Ascii.eqb e "E" then
          let '(en, t1) :=
            match t with
            | String "+" t' => (false, t')
            | String "-" t' => (true, t')
            | _ => (false, t)
            end in
          let '(ep, r) := digits t1 in
          if String.eqb ep EmptyString then None else Some (mk en ep, r)
        else Some (mk false EmptyString, s3)
      | EmptyString => Some (mk false EmptyString, s3)
      end
    end.

Fixpoint decimal (acc : Z) (s : string) : Z :=
  match s with
  | String c t => decimal (acc * 10 + (byteZ c - 0x30)) t
  | EmptyString => acc
  end.

(** Whether the literal is out of the range of a float64, where
    [strconv.ParseFloat] reports [ErrRange]: its magnitude rounds to
    2^1024, that is, it is at least 2^1024 - 2^970. *)
Definition overflowsFloat64 (n : numeral) : bool :=
  let m := decimal 0 (intPart n +:+ fracPart n) in
  let e := (if expNegative n then - decimal 0 (expPart n) else decimal 0 (expPart n))
           - Z.of_nat (String.length (fracPart n)) in
  let limit := 2 ^ 1024 - 2 ^ 970 in
  if 0 <=? e then limit <=? m * 10 ^ e else limit * 10 ^ (- e) <=? m.

Section Composite.

(** The parser of one value, leading white space included. *)
Variable one : string -> option (value * string).

(** The items of an array from its first value to the closing bracket.
    [n] bounds the number of items; a remainder of [n] bytes holds
    fewer. *)
Fixpoint elements (n : nat) (s : string) : option (list value * string) :=
  match n with
  | O => None
  | S n' =>
    match one s with
    | None => None
    | Some (v, r) =>
      match skipSpace r with
      | String "," r' =>
        match elements n' r' with
        | Some (vs, r'') => Some (v :: vs, r'')
        | None => None
        end
      | String "]" r' => Some ([v], r')
      | _ => None
      end
    end
  end.

(** The members of an object from its first key to the closing brace. *)
Fixpoint members (n : nat) (s : string)
    : option (list (string * value) * string) :=
  match n with
  | O => None
  | S n' =>
    match skipSpace s with
    | String q t =>
      if Ascii.eqb q dquote then
        match stringBody 0 t with
        | None => None
        | Some (k, r) =>
          match skipSpace r with
          | String ":" r1 =>
            match one r1 with
            | None => None
            | Some (v, r2) =>
              match skipSpace r2 with
              | String "," r3 =>
                match members n' r3 with
                | Some (kvs, r4) => Some ((k, v) :: kvs, r4)
                | None => None
                end
              | String "}" r3 => Some ([(k, v)], r3)
              | _ => None
              end
            end
          | _ => None
          end
        end
      else None
    | EmptyString => None
    end
  end.

End Composite.

(** The scanner gives up beyond this many nested arrays and objects. *)
Definition maxNestingDepth : nat := Z.to_nat 10000.

Definition literal (word : string) (v : value) (s : string)
    : option (value * string) :=
  if String.prefix word s
  then Some (v, String.substring (String.length word)
                  (String.length s - String.length word) s)
  else None.

(** One JSON value at the head of [s]; [depth] is the number of arrays
    and objects that may still be opened. *)
Fixpoint parseValue (depth : nat) (s : string) : option (value * string) :=
  match skipSpace s with
  | EmptyString => None
  | String c t as s' =>
    if Ascii.eqb c "{" then
      match depth with
      | O => None
      | S d =>
        match skipSpace t with
        | String "}" r => Some (Object [], r)
        | _ =>
          match members (parseValue d) (String.length t) t with
          | Some (kvs, r) => Some (Object kvs, r)
          | None => None
          end
        end
      end
    else if Ascii.eqb c "[" then
      match depth with
      | O => None
      | S d =>
        match skipSpace t with
        | String "]" r => Some (Array [], r)
        | _ =>
          match elements (parseValue d) (String.length t) t with
          | Some (vs, r) => Some (Array vs, r)
          | None => None
          end
        end
      end
    else if Ascii.eqb c dquote then
      match stringBody 0 t with
      | Some (str, r) => Some (Str str, r)
      | None => None
      end
    else if Ascii.eqb c "-" || isDigit c then
      match numberLit s' with
      | Some (_, r) =>
        Some (Number (String.substring 0 (String.length s' - String.length r) s'), r)
      | None => None
      end
    else if Ascii.eqb c "t" then literal "true" (Bool true) s'
    else if Ascii.eqb c "f" then literal "false" (Bool false) s'
    else if Ascii.eqb c "n" then literal "null" Null s'
    else None
  end.

(** [checkValid]: the whole input is one JSON value between white
    space. *)
Definition parse (data : string) : option value :=
  match parseValue maxNestingDepth data with
  | Some (v, r) =>
    match skipSpace r with
    | EmptyString => Some v
    | _ => None
    end
  | None => None
  end.

(** The first number of the value that does not fit a float64. *)
Fixpoint firstOverflow (v : value) : option string :=
  match v with
  | Number lit =>
    match numberLit lit with
    | Some (n, _) => if overflowsFloat64 n then Some lit else None
    | None => None
    end
  | Array items =>
    foldr (fun item found =>
             match firstOverflow item with
             | Some lit => Some lit
             | None => found
             end) None items
  | Object ms =>
    foldr (fun kv found =>
             match firstOverflow (snd kv) with
             | Some lit => Some lit
             | None => found
             end) None ms
  | _ => None
  end.

(** [objectInterface]: the members in input order; a repeated key keeps
    its last value. *)
Definition toMap (ms : list (string * value)) : gmap string value :=
  fold_left (fun m kv => <[fst kv := snd kv]> m) ms ∅.

Definition kindName (v : value) : string :=
  match v with
  | Null => "null"
  | Bool _ => "bool"
  | Number _ => "number"
  | Str _ => "string"
  | Array _ => "array"
  | Object _ => "object"
  end.

(** [json.Unmarshal(data, &result)] where [result] is a
    [map[string]interface{}] holding an empty map: the map afterwards and
    the error.  A top-level object fills the map and a top-level [null]
    sets it to nil, both without an error unless a number is out of
    range; any other value is reported as an [UnmarshalTypeError]. *)
Definition Unmarshal (data : string) : GoMap.t value * option error :=
  match parse data with
  | None => (GoMap.Make ∅, Some SyntaxError)
  | Some (Object ms) =>
    (GoMap.Make (toMap ms),
     match firstOverflow (Object ms) with
     | Some lit => Some (UnmarshalTypeError ("number " +:+ lit) "float64")
     | None => None
     end)
  | Some Null => (GoMap.Nil, None)
  | Some v =>
    (GoMap.Make ∅, Some (UnmarshalTypeError (kindName v) "map[string]interface {}"))
  end.

End Json.

(** ** terraform-plugin-framework: values, diagnostics, conversions *)

Module Tf.

(** [types.String]. *)
Inductive StringValue : Type :=
| StringNull
| StringUnknown
| StringKnown (s : string).

(** [types.List] and [types.Map] with [ElementType: types.StringType]. *)
Inductive ListValue : Type :=
| ListNull
| ListUnknown
| ListKnown (elems : list StringValue).

Inductive MapValue : Type :=
| MapNull
| MapUnknown
| MapKnown (elems : gmap string StringValue).

#[global] Instance StringValue_eq_dec : EqDecision StringValue.
Proof. solve_decision. Defined.

Section Rendering.

Variable isPrintWide : Z -> bool.

(** [StringValue.String()], the form meant for logs: a known value is
    printed with [fmt.Sprintf("%q", value)], so it comes between
    double quotes with Go's escapes; the resource takes the double quotes
    out again. *)
Definition String (v : StringValue) : string :=
  match v with
  | StringUnknown => "<unknown>"
  | StringNull => "<null>"
  | StringKnown s => Strconv.Quote isPrintWide s
  end.

End Rendering.

(** [StringValue.ValueString()]. *)
Definition ValueString (v : StringValue) : string :=
  match v with
  | StringKnown s => s
  | _ => EmptyString
  end.

(** [Elements()]: nothing for a null or unknown collection. *)
Definition ListElements (l : ListValue) : list StringValue :=
  match l with
  | ListKnown elems => elems
  | _ => []
  end.

Definition MapElements (m : MapValue) : gmap string StringValue :=
  match m with
  | MapKnown elems => elems
  | _ => ∅
  end.

(** [diag.Diagnostic] and [diag.Diagnostics]. *)
Inductive Severity : Type := SeverityError | SeverityWarning.

Record Diagnostic : Type :=
  { Sev : Severity; Summary : string; Detail : string }.

#[global] Instance Severity_eq_dec : EqDecision Severity.
Proof. solve_decision. Defined.

#[global] Instance Diagnostic_eq_dec : EqDecision Diagnostic.
Proof. solve_decision. Defined.

Definition NewErrorDiagnostic (summary detail : string) : Diagnostic :=
  {| Sev := SeverityError; Summary := summary; Detail := detail |}.

Definition Contains (diags : list Diagnostic) (d : Diagnostic) : bool :=
  bool_decide (d ∈ diags).

(** [diags.Append(in...)]: a diagnostic already held is not added
    again. *)
Definition Append (diags : list Diagnostic) (new : list Diagnostic)
    : list Diagnostic :=
  fold_left (fun acc d => if Contains acc d then acc else acc ++ [d]) new diags.

Definition AddError (diags : list Diagnostic) (summary detail : string)
    : list Diagnostic :=
  Append diags [NewErrorDiagnostic summary detail].

Definition isError (d : Diagnostic) : bool :=
  match Sev d with
  | SeverityError => true
  | SeverityWarning => false
  end.

Definition HasError (diags : list Diagnostic) : bool := existsb isError diags.

Definition asString (v : Json.value) : option StringValue :=
  match v with
  | Json.Str s => Some (StringKnown s)
  | _ => None
  end.

(** The diagnostic of a value that does not convert to the element
    type.  The text stands for the framework's own, which goes on to name
    the Go type and the schema type involved. *)
Definition conversionError : Diagnostic :=
  NewErrorDiagnostic "Value Conversion Error"
    "An unexpected error was encountered trying to convert the value. This is always an error in the provider.".

(** [types.MapValueFrom(ctx, types.StringType, result)] for [result] of
    type [map[string]interface{}]: a nil map gives the null map; a map
    whose values all hold Go strings gives the map of these strings; with
    any other value the conversion stops with an error diagnostic and
    the unknown map. *)
Definition MapValueFrom (result : GoMap.t Json.value)
    : MapValue * list Diagnostic :=
  match result with
  | GoMap.Nil => (MapNull, [])
  | GoMap.Make g =>
    if bool_decide (map_Forall (fun _ v => is_Some (asString v)) g)
    then (MapKnown (omap asString g), [])
    else (MapUnknown, [conversionError])
  end.

End Tf.

(** ** The host: [os/exec] and [runtime] *)

Module Exec.

(** [exec.Cmd] as [programResource.Create] fills it in. *)
Record Cmd : Type :=
  { Path : string; Args : list string; Dir : string; Stdin : string }.

(** How the run of a command ended, as [os/exec] observes it.
    [byContext] tells whether the signal was the kill that
    [exec.CommandContext] sends when its context is done before the child
    has exited; the Go error does not carry it. *)
Inductive Ending : Type :=
| Exited (status : Z)
| Signaled (signal : string) (byContext : bool)
| Failed (err : string).

Record Outcome : Type :=
  { Stdout : string; Stderr : string; End_ : Ending }.

(** The errors of [cmd.Output()]: an [*exec.ExitError] with the captured
    standard error and the text of its process state, or another
    error. *)
Inductive error : Type :=
| ExitError (stderr : string) (state : string)
| OtherError (text : string).

Definition Error (e : error) : string :=
  match e with
  | ExitError _ state => state
  | OtherError text => text
  end.

Definition itoa (z : Z) : string :=
  DecimalString.NilZero.string_of_int (Z.to_int z).

(** [cmd.Output()] from the way the run ended: the bytes of standard
    output, and no error exactly when the child exited with status 0. *)
Definition result (o : Outcome) : string * option error :=
  (Stdout o,
   match End_ o with
   | Exited status =>
     if status =? 0 then None
     else Some (ExitError (Stderr o) ("exit status " +:+ itoa status))
   | Signaled signal _ => Some (ExitError (Stderr o) ("signal: " +:+ signal))
   | Failed err => Some (OtherError err)
   end).

Record Host : Type :=
  { (** the tables of [strconv.IsPrint] for the runes above U+00FF *)
    isPrintWide : Z -> bool;
    (** [runtime.GOOS] *)
    GOOS : string;
    (** [exec.LookPath]: the path found and the error *)
    LookPath : string -> string * option string;
    (** the [Path] that [exec.Command] records for a program name: the
        name itself when it has a path separator, what [LookPath] finds
        otherwise *)
    CommandPath : string -> string;
    (** the run of a command *)
    Run : Cmd -> Outcome }.

(** [exec.CommandContext(ctx, name, arg...)]; the context is the one the
    resource was called with, and what it does to the child shows in the
    [Ending] of the run. *)
Definition CommandContext (h : Host) (name : string) (arg : list string) : Cmd :=
  {| Path := CommandPath h name; Args := name :: arg;
     Dir := EmptyString; Stdin := EmptyString |}.

Definition withDir (c : Cmd) (dir : string) : Cmd :=
  {| Path := Path c; Args := Args c; Dir := dir; Stdin := Stdin c |}.

Definition withStdin (c : Cmd) (input : string) : Cmd :=
  {| Path := Path c; Args := Args c; Dir := Dir c; Stdin := input |}.

(** [cmd.String()] of a command whose lookup succeeded. *)
Definition String_ (c : Cmd) : string :=
  Path c +:+ fold_right (fun a rest => " " +:+ a +:+ rest) EmptyString (tail (Args c)).

End Exec.

(** ** The resource ([internal/provider/provider.go]) *)

Module Provider.

Import Tf.

Abbreviation dquote := Strconv.dquote.
Definition nl : string := String.String "010" EmptyString.
Definition quoted (s : string) : string :=
  String.String dquote (s +:+ String.String dquote EmptyString).

Record execModelV0 : Type :=
  { Id : StringValue;
    Program : ListValue;
    WorkingDir : StringValue;
    Query : MapValue;
    Result : MapValue }.

(** [tfsdk.Plan]: [Plan.Get(ctx, &model)] decodes the planned values into
    the model and reports what went wrong in doing so. *)
Record Plan : Type :=
  { PlanModel : execModelV0; PlanDiags : list Diagnostic }.

Definition Plan_Get (p : Plan) : list Diagnostic * execModelV0 :=
  (PlanDiags p, PlanModel p).

(** The request and the response of Create and Update.  [State] is
    [None] until [State.Set] has stored a model. *)
Record Request : Type := { ReqPlan : Plan }.

Record Response : Type :=
  { State : option execModelV0; Diagnostics : list Diagnostic }.

(** What a call does besides filling the response. *)
Inductive Event : Type :=
| Trace (msg : string) (fields : list (string * string))
| Launch (cmd : Exec.Cmd).

(** *** Statements: a response and a log threaded through, with early
    return *)

Record World : Type := { resp : Response; log : list Event }.

Inductive Flow (A : Type) : Type :=
| Next (a : A)
| Return.
Arguments Next {A} a.
Arguments Return {A}.

Definition Stmt (A : Type) : Type := World -> Flow A * World.

Definition pure {A} (a : A) : Stmt A := fun w => (Next a, w).

Definition bind {A B} (m : Stmt A) (k : A -> Stmt B) : Stmt B :=
  fun w =>
    match m w with
    | (Next a, w') => k a w'
    | (Return, w') => (Return, w')
    end.

Definition return_ {A} : Stmt A := fun w => (Return, w).

Notation "'let*' x ':=' m 'in' k" := (bind m (fun x => k))
  (at level 10, x pattern, m at level 100, k at level 200, only parsing).
Notation "m '>>>' k" := (bind m (fun _ => k))
  (at level 90, right associativity, only parsing).

Definition appendDiagnostics (ds : list Diagnostic) : Stmt unit :=
  fun w =>
    (Next tt,
     {| resp := {| State := State (resp w);
                   Diagnostics := Append (Diagnostics (resp w)) ds |};
        log := log w |}).

Definition addError (summary detail : string) : Stmt unit :=
  appendDiagnostics [NewErrorDiagnostic summary detail].

(** [if resp.Diagnostics.HasError() { return }]. *)
Definition returnIfHasError : Stmt unit :=
  fun w =>
    if HasError (Diagnostics (resp w)) then (Return, w) else (Next tt, w).

Definition emitEvent (e : Event) : Stmt unit :=
  fun w => (Next tt, {| resp := resp w; log := log w ++ [e] |}).

(** [resp.State.Set(ctx, model)]: the model is stored; the diagnostics
    returned are empty, the model having the types of the schema. *)
Definition stateSet (model : execModelV0) : Stmt (list Diagnostic) :=
  fun w =>
    (Next [],
     {| resp := {| State := Some model; Diagnostics := Diagnostics (resp w) |};
        log := log w |}).

(** [cmd.Output()]. *)
Definition output (h : Exec.Host) (cmd : Exec.Cmd)
    : Stmt (string * option Exec.error) :=
  emitEvent (Launch cmd) >>> pure (Exec.result (Exec.Run h cmd)).

(** *** The messages *)

Definition ProgramMissing : string := "External Program Missing".
Definition QueryHandlingFailed : string := "Query Handling Failed".
Definition ProgramLookupFailed : string := "External Program Lookup Failed".
Definition ExecutionFailed : string := "External Program Execution Failed".
Definition ResultMalformed : string := "Unexpected External Program Results".

Definition programMissingDetail : string :=
  "The data source was configured without a program to execute. Verify the configuration contains at least one non-empty value.".

Definition queryHandlingDetail : string :=
  "The data source received an unexpected error while attempting to parse the query. "
  +:+ "This is always a bug in the external provider code and should be reported to the provider developers.".

Definition lookupDetail (goos program err : string) : string :=
  "The data source received an unexpected error while attempting to find the program."
  +:+ nl +:+ nl
  +:+ "The program must be accessible according to the platform where Terraform is running."
  +:+ nl +:+ nl
  +:+ "If the expected program should be automatically found on the platform where Terraform is running, ensure that the program is in an expected directory. On Unix-based platforms, these directories are typically searched based on the '$PATH' environment variable. On Windows-based platforms, these directories are typically searched based on the '%PATH%' environment variable."
  +:+ nl +:+ nl
  +:+ "If the expected program is relative to the Terraform configuration, it is recommended that the program name includes the interpolated value of 'path.module' before the program name to ensure that it is compatible with varying module usage. For example: "
  +:+ quoted "${path.module}/my-program"
  +:+ nl +:+ nl
  +:+ "The program must also be executable according to the platform where Terraform is running. On Unix-based platforms, the file on the filesystem must have the executable bit set. On Windows-based platforms, no action is typically necessary."
  +:+ nl
  +:+ (nl +:+ "Platform: " +:+ goos)
  +:+ (nl +:+ "Program: " +:+ program)
  +:+ (nl +:+ "Error: " +:+ err).

Definition executionIntro : string :=
  "The data source received an unexpected error while attempting to execute the program.".

(** Non-zero exit with something captured from standard error. *)
Definition exitDetailWithStderr (path stderr state : string) : string :=
  executionIntro
  +:+ (nl +:+ nl +:+ "Program: " +:+ path)
  +:+ (nl +:+ "Error Message: " +:+ stderr)
  +:+ (nl +:+ "State: " +:+ state).

(** Non-zero exit with nothing captured. *)
Definition exitDetailBare (path state : string) : string :=
  executionIntro +:+ nl +:+ nl
  +:+ "The program was executed, however it returned no additional error messaging."
  +:+ (nl +:+ nl +:+ "Program: " +:+ path)
  +:+ (nl +:+ "State: " +:+ state).

(** Any other error of [cmd.Output()]. *)
Definition runDetail (path err : string) : string :=
  executionIntro
  +:+ (nl +:+ nl +:+ "Program: " +:+ path)
  +:+ (nl +:+ "Error: " +:+ err).

Definition resultDetail (path err : string) : string :=
  "The data source received unexpected results after executing the program."
  +:+ nl +:+ nl
  +:+ "Program output must be a JSON encoded map of string keys and string values."
  +:+ nl +:+ nl
  +:+ "If the error is unclear, the output can be viewed by enabling Terraform's logging at TRACE level. Terraform documentation on logging: https://www.terraform.io/internals/debugging"
  +:+ nl
  +:+ (nl +:+ "Program: " +:+ path)
  +:+ (nl +:+ "Result Error: " +:+ err).

(** *** Create *)

Section Operations.

Variable h : Exec.Host.

(** The text of a planned string as the resource takes it:
    [strings.Replace] of the double quote by nothing, without limit,
    in [v.String()]. *)
Definition unquoted (v : StringValue) : string :=
  Strings.Replace (Tf.String (Exec.isPrintWide h) v)
    (String.String dquote EmptyString) EmptyString (-1).

(** The loop over [plan.Program.Elements()]: the arguments that are not
    empty, appended to [program] in order. *)
Fixpoint programLoop (elems : list StringValue) (program : list string)
    : list string :=
  match elems with
  | [] => program
  | programArgRaw :: rest =>
    let programArg := unquoted programArgRaw in
    if String.eqb programArg EmptyString then programLoop rest program
    else programLoop rest (program ++ [programArg])
  end.

(** The loop over [plan.Query.Elements()], one step per entry. *)
Definition queryStep (key : string) (val : StringValue)
    (query : GoMap.t string) : GoMap.t string :=
  let valArg := unquoted val in
  if String.eqb valArg EmptyString then query
  else GoMap.set key valArg query.

Definition queryLoop (elems : gmap string StringValue) : GoMap.t string :=
  map_fold queryStep (GoMap.Make ∅) elems.

Definition withId (m : execModelV0) (id : StringValue) : execModelV0 :=
  {| Id := id; Program := Program m; WorkingDir := WorkingDir m;
     Query := Query m; Result := Result m |}.

Definition withResult (m : execModelV0) (r : MapValue) : execModelV0 :=
  {| Id := Id m; Program := Program m; WorkingDir := WorkingDir m;
     Query := Query m; Result := r |}.

Definition Create (req : Request) : Stmt unit :=
  let '(diags, plan) := Plan_Get (ReqPlan req) in
  appendDiagnostics diags >>>
  returnIfHasError >>>
  let program := programLoop (ListElements (Program plan)) [] in
  match program with
  | [] => addError ProgramMissing programMissingDetail >>> return_
  | program0 :: args =>
    let query := queryLoop (MapElements (Query plan)) in
    let '(queryJson, err) := Json.Marshal query in
    match err with
    | Some _ => addError QueryHandlingFailed queryHandlingDetail >>> return_
    | None =>
      match snd (Exec.LookPath h program0) with
      | Some err =>
        addError ProgramLookupFailed
          (lookupDetail (Exec.GOOS h) program0 err) >>> return_
      | None =>
        let cmd := Exec.CommandContext h program0 args in
        let cmd := Exec.withDir cmd (ValueString (WorkingDir plan)) in
        let cmd := Exec.withStdin cmd queryJson in
        emitEvent (Trace "Executing external program"
                     [("program", Exec.String_ cmd)]) >>>
        let* (resultJson, err) := output h cmd in
        emitEvent (Trace "Executed external program"
                     [("program", Exec.String_ cmd); ("output", resultJson)]) >>>
        match err with
        | Some (Exec.ExitError stderr state) =>
          if (0 <? String.length stderr)%nat then
            addError ExecutionFailed
              (exitDetailWithStderr (Exec.Path cmd) stderr state) >>> return_
          else
            addError ExecutionFailed
              (exitDetailBare (Exec.Path cmd) state) >>> return_
        | Some (Exec.OtherError text) =>
          addError ExecutionFailed (runDetail (Exec.Path cmd) text) >>> return_
        | None =>
          let '(result, err) := Json.Unmarshal resultJson in
          match err with
          | Some err =>
            addError ResultMalformed
              (resultDetail (Exec.Path cmd) (Json.Error err)) >>> return_
          | None =>
            let i := withId plan (StringKnown "example-id") in
            let '(res, d) := MapValueFrom result in
            let i := withResult i res in
            (if (0 <? length d)%nat then appendDiagnostics d else pure tt) >>>
            let* diags := stateSet i in
            appendDiagnostics diags >>>
            returnIfHasError
          end
        end
      end
    end
  end.

(** *** Read, Update, Delete *)

(** The body of [Read] is empty. *)
Definition Read : Stmt unit := pure tt.

Definition Update (req : Request) : Stmt unit :=
  let '(diags, model) := Plan_Get (ReqPlan req) in
  appendDiagnostics diags >>>
  returnIfHasError >>>
  let* diags := stateSet model in
  appendDiagnostics diags.

(** The body of [Delete] is empty. *)
Definition Delete : Stmt unit := pure tt.

End Operations.

(** A call on a response, from an empty log: the response and the log at
    the end. *)
Definition call (body : Stmt unit) (r : Response) : Response * list Event :=
  let w := snd (body {| resp := r; log := [] |}) in (resp w, log w).

(** The response Create and Update are given: no state, no
    diagnostics. *)
Definition emptyResponse : Response := {| State := None; Diagnostics := [] |}.

(** The response Read is given: the prior state, no diagnostics. *)
Definition readResponse (prior : execModelV0) : Response :=
  {| State := Some prior; Diagnostics := [] |}.

Definition launched (events : list Event) : list Exec.Cmd :=
  omap (fun e => match e with Launch c => Some c | _ => None end) events.

Definition raised (summary : string) (r : Response) : Prop :=
  exists d, d ∈ Diagnostics r /\ Sev d = SeverityError /\ Summary d = summary.

End Provider.

(** ** Notions used to state the properties *)

Module Reading.

Import Tf.
Import Provider.

(** [s] with every double quote taken out. *)
Fixpoint withoutQuotes (s : string) : string :=
  match s with
  | EmptyString => EmptyString
  | String.String c t =>
    if Ascii.eqb c dquote then withoutQuotes t
    else String.String c (withoutQuotes t)
  end.


(** Printable ASCII other than the double quote and the backslash: the
    bytes that [strconv.Quote] leaves as they are. *)
Definition plainByte (c : ascii) : bool :=
  Utf8.within 0x20 0x7E c
  && negb (Ascii.eqb c dquote) && negb (Ascii.eqb c "\").

Fixpoint plain (s : string) : bool :=
  match s with
  | EmptyString => true
  | String.String c t => plainByte c && plain t
  end.

(** The empty-string element. *)
Definition blank : StringValue := StringKnown EmptyString.

(** The elements of a list that are not the empty string. *)
Definition nonBlank (elems : list StringValue) : list StringValue :=
  filter (fun v => v <> blank) elems.


(** The query entries as the resource takes them: each value in its
    printed form without the double quotes, the entries that come out
    empty left out. *)
Definition rendered (h : Exec.Host) (elems : gmap string StringValue)
    : gmap string string :=
  omap (fun v =>
          if String.eqb (unquoted h v) EmptyString then None
          else Some (unquoted h v)) elems.


(** The run ended by the kill that [exec.CommandContext] sends when the
    deadline or the cancellation of its context fires before the child
    has exited. *)
Definition byDeadline (e : Exec.Ending) : Prop :=
  exists signal, e = Exec.Signaled signal true.

(** A detail message tells that the deadline fired when Create reports
    it for no other kind of run. *)
Definition tellsDeadline (detail : string) : Prop :=
  forall h req cmd,
    cmd ∈ launched (snd (call (Create h req) emptyResponse)) ->
    NewErrorDiagnostic ExecutionFailed detail
      ∈ Diagnostics (fst (call (Create h req) emptyResponse)) ->
    byDeadline (Exec.End_ (Exec.Run h cmd)).

(** An exchange that completed: no error among the diagnostics. *)
Definition succeeded (r : Response) : Prop := HasError (Diagnostics r) = false.

(** Strings of ASCII bytes. *)
Fixpoint isASCII (s : string) : bool :=
  match s with
  | EmptyString => true
  | String.String c t => (Utf8.byteZ c <? 0x80) && isASCII t
  end.

Definition asciiPair (kv : string * string) : Prop :=
  isASCII (fst kv) = true /\ isASCII (snd kv) = true.

(** What [encodeLoop] writes for one ASCII byte. *)
Definition encodeByte (c : ascii) : string :=
  if Json.htmlSafe (Utf8.byteZ c) then String.String c EmptyString
  else Json.escapeByte c.

(** A member of a JSON object whose value is a string. *)
Definition asMember (kv : string * string) : string * Json.value :=
  (fst kv, Json.Str (snd kv)).

(** *** The ways out of Create *)

Section Exits.

Variable h : Exec.Host.
Variable plan : execModelV0.

(** The command Create builds for a program name and its arguments. *)
Definition command (program0 : string) (args : list string) : Exec.Cmd :=
  Exec.withStdin
    (Exec.withDir (Exec.CommandContext h program0 args)
       (ValueString (WorkingDir plan)))
    (fst (Json.Marshal (queryLoop h (MapElements (Query plan))))).

(** The log of a call that ran [cmd] and read [out] from it. *)
Definition runLog (cmd : Exec.Cmd) (out : string) : list Event :=
  [ Trace "Executing external program" [("program", Exec.String_ cmd)];
    Launch cmd;
    Trace "Executed external program"
      [("program", Exec.String_ cmd); ("output", out)] ].

(** The detail reported for an error of [cmd.Output()]. *)
Definition executionDetail (path : string) (e : Exec.error) : string :=
  match e with
  | Exec.ExitError stderr state =>
    if String.eqb stderr EmptyString then exitDetailBare path state
    else exitDetailWithStderr path stderr state
  | Exec.OtherError text => runDetail path text
  end.

Definition failed (ds : list Diagnostic) (summary detail : string) : Response :=
  {| State := None; Diagnostics := ds ++ [NewErrorDiagnostic summary detail] |}.

(** Create on a plan that decoded with the diagnostics [ds], none of
    them an error, ends in one of five ways. *)
Inductive Exit (ds : list Diagnostic) : Response -> list Event -> Prop :=
| ExitProgramMissing :
    programLoop h (ListElements (Program plan)) [] = [] ->
    Exit ds (failed ds ProgramMissing programMissingDetail) []
| ExitLookupFailed program0 args err :
    programLoop h (ListElements (Program plan)) [] = program0 :: args ->
    snd (Exec.LookPath h program0) = Some err ->
    Exit ds
      (failed ds ProgramLookupFailed (lookupDetail (Exec.GOOS h) program0 err)) []
| ExitExecutionFailed program0 args out e :
    programLoop h (ListElements (Program plan)) [] = program0 :: args ->
    snd (Exec.LookPath h program0) = None ->
    Exec.result (Exec.Run h (command program0 args)) = (out, Some e) ->
    Exit ds
      (failed ds ExecutionFailed
         (executionDetail (Exec.Path (command program0 args)) e))
      (runLog (command program0 args) out)
| ExitResultMalformed program0 args out partial e :
    programLoop h (ListElements (Program plan)) [] = program0 :: args ->
    snd (Exec.LookPath h program0) = None ->
    Exec.result (Exec.Run h (command program0 args)) = (out, None) ->
    Json.Unmarshal out = (partial, Some e) ->
    Exit ds
      (failed ds ResultMalformed
         (resultDetail (Exec.Path (command program0 args)) (Json.Error e)))
      (runLog (command program0 args) out)
| ExitStored program0 args out result :
    programLoop h (ListElements (Program plan)) [] = program0 :: args ->
    snd (Exec.LookPath h program0) = None ->
    Exec.result (Exec.Run h (command program0 args)) = (out, None) ->
    Json.Unmarshal out = (result, None) ->
    Exit ds
      {| State := Some (withResult (withId plan (StringKnown "example-id"))
                          (fst (MapValueFrom result)));
         Diagnostics := ds ++ snd (MapValueFrom result) |}
      (runLog (command program0 args) out).

End Exits.

End Reading.

(** ** Concrete hosts and requests *)

Module Examples.

Import Tf.
Import Provider.

(** A host that finds [prog] in [/usr/bin] and nothing else, and where
    every run ends as [o]. *)
Definition host (o : Exec.Outcome) : Exec.Host :=
  {| Exec.isPrintWide := fun _ => false;
     Exec.GOOS := "linux";
     Exec.LookPath := fun name =>
       if String.eqb name "prog" then ("/usr/bin/prog", None)
       else (EmptyString, Some "executable file not found in $PATH");
     Exec.CommandPath := fun name =>
       if String.eqb name "prog" then "/usr/bin/prog" else name;
     Exec.Run := fun _ => o |}.

Definition exits (status : Z) (out err : string) : Exec.Outcome :=
  {| Exec.Stdout := out; Exec.Stderr := err; Exec.End_ := Exec.Exited status |}.

Definition killed (byContext : bool) : Exec.Outcome :=
  {| Exec.Stdout := EmptyString; Exec.Stderr := EmptyString;
     Exec.End_ := Exec.Signaled "killed" byContext |}.

Definition request (program : list string) (query : list (string * string))
    : Request :=
  {| ReqPlan :=
       {| PlanDiags := [];
          PlanModel :=
            {| Id := StringUnknown;
               Program := ListKnown (map StringKnown program);
               WorkingDir := StringNull;
               Query := MapKnown (list_to_map
                          (map (fun kv => (fst kv, StringKnown (snd kv))) query));
               Result := MapUnknown |} |} |}.

(** An object whose one value is the number 1, and an object whose one
    value is a string. *)
Definition numberOutput : string := "{" +:+ quoted "a" +:+ ":1}".
Definition stringOutput : string := "{" +:+ quoted "a" +:+ ":" +:+ quoted "x" +:+ "}".

(** An argument with a double quote between [a] and [b]. *)
Definition quoteInside : string :=
  "a" +:+ String.String dquote EmptyString +:+ "b".

End Examples.

(** ** terraform-plugin-framework: schemas, plan modifiers, type names *)

Module Fw.

Import Tf.

(** [resource.MetadataRequest], [resource.MetadataResponse] and their
    provider counterparts. *)
Record MetadataRequest : Type := { ProviderTypeName : string }.
Record MetadataResponse : Type := { TypeName : string }.

Inductive AttrType : Type :=
| StringType
| ListType (elem : AttrType)
| MapType (elem : AttrType).

(** The plan modifiers the resource uses:
    [stringplanmodifier.UseStateForUnknown] and the [RequiresReplace] of
    the string, list and map plan modifier packages. *)
Inductive PlanModifier : Type :=
| UseStateForUnknown
| RequiresReplace.

(** [schema.StringAttribute], [schema.ListAttribute] and
    [schema.MapAttribute]; [Type_] tells which. *)
Record Attribute : Type :=
  { Type_ : AttrType;
    Required : bool;
    Optional : bool;
    Computed : bool;
    Description : string;
    MarkdownDescription : string;
    PlanModifiers : list PlanModifier }.

Record Schema : Type :=
  { SchemaDescription : string;
    Attributes : gmap string Attribute }.

(** A value of an attribute. *)
Inductive Value : Type :=
| VString (v : StringValue)
| VList (v : ListValue)
| VMap (v : MapValue).

#[global] Instance ListValue_eq_dec : EqDecision ListValue.
Proof. solve_decision. Defined.

#[global] Instance MapValue_eq_dec : EqDecision MapValue.
Proof. solve_decision. Defined.

#[global] Instance Value_eq_dec : EqDecision Value.
Proof. solve_decision. Defined.

Definition IsNull (v : Value) : bool :=
  match v with
  | VString StringNull | VList ListNull | VMap MapNull => true
  | _ => false
  end.

Definition IsUnknown (v : Value) : bool :=
  match v with
  | VString StringUnknown | VList ListUnknown | VMap MapUnknown => true
  | _ => false
  end.

(** The request a plan modifier sees for its attribute: whether there is a
    prior state and a plan at all ([State.Raw] and [Plan.Raw] not null),
    and the configured, prior and planned values of the attribute. *)
Record ModifyRequest : Type :=
  { HasState : bool;
    HasPlan : bool;
    ConfigValue : Value;
    StateValue : Value;
    PlanValue : Value }.

Record ModifyResponse : Type :=
  { NewPlanValue : Value;
    NeedsReplace : bool }.

(** [PlanModifyString], [PlanModifyList], [PlanModifyMap] of the two
    modifiers.  [RequiresReplace] does nothing on creation, on destruction,
    or when the planned value equals the prior one; [UseStateForUnknown]
    does nothing without a prior value, with a known planned value, or with
    an unknown configured value. *)
Definition PlanModify (m : PlanModifier) (req : ModifyRequest)
    (resp : ModifyResponse) : ModifyResponse :=
  match m with
  | RequiresReplace =>
    if negb (HasState req) then resp
    else if negb (HasPlan req) then resp
    else if bool_decide (PlanValue req = StateValue req) then resp
    else {| NewPlanValue := NewPlanValue resp; NeedsReplace := true |}
  | UseStateForUnknown =>
    if IsNull (StateValue req) then resp
    else if negb (IsUnknown (PlanValue req)) then resp
    else if IsUnknown (ConfigValue req) then resp
    else {| NewPlanValue := StateValue req; NeedsReplace := NeedsReplace resp |}
  end.

(** The modifiers of one attribute, in order; each sees the planned value
    the one before it left. *)
Fixpoint runModifiers (ms : list PlanModifier) (req : ModifyRequest)
    (resp : ModifyResponse) : ModifyResponse :=
  match ms with
  | [] => resp
  | m :: rest =>
    let resp' := PlanModify m req resp in
    runModifiers rest
      {| HasState := HasState req; HasPlan := HasPlan req;
         ConfigValue := ConfigValue req; StateValue := StateValue req;
         PlanValue := NewPlanValue resp' |}
      resp'
  end.

End Fw.

(** ** The provider and the resource type ([internal/provider/provider.go]) *)

Module P.

Import Fw.

(** [p.Metadata]. *)
Definition Metadata (req : MetadataRequest) (resp : MetadataResponse)
    : MetadataResponse :=
  {| TypeName := "external" |}.


End P.

Module ProgramResource.

Import Tf.
Import Fw.
Import Provider.

(** [programResource.Metadata]. *)
Definition Metadata (req : MetadataRequest) (resp : MetadataResponse)
    : MetadataResponse :=
  {| TypeName := ProviderTypeName req +:+ "_persisted" |}.

Definition schemaDescription : string :=
  "The `external` data source allows an external program implementing a specific protocol "
  +:+ "(defined below) to act as a data source, exposing arbitrary data for use elsewhere in the Terraform "
  +:+ "configuration." +:+ nl
  +:+ nl
  +:+ "**Warning** This mechanism is provided as an " +:+ quoted "escape hatch"
  +:+ " for exceptional situations where a "
  +:+ "first-class Terraform provider is not more appropriate. Its capabilities are limited in comparison "
  +:+ "to a true data source, and implementing a data source via an external program is likely to hurt the "
  +:+ "portability of your Terraform configuration by creating dependencies on external programs and "
  +:+ "libraries that may not be available (or may need to be used differently) on different operating "
  +:+ "systems." +:+ nl
  +:+ nl
  +:+ "**Warning** Terraform Enterprise does not guarantee availability of any particular language runtimes "
  +:+ "or external programs beyond standard shell utilities, so it is not recommended to use this data source "
  +:+ "within configurations that are applied within Terraform Enterprise.".

Definition queryDescription : string :=
  "A map of string values to pass to the external program as the query "
  +:+ "arguments. If not supplied, the program will receive an empty object as its input.".

Definition attribute (type : AttrType) (required optional computed : bool)
    (description markdown : string) (modifiers : list PlanModifier) : Attribute :=
  {| Type_ := type; Required := required; Optional := optional;
     Computed := computed; Description := description;
     MarkdownDescription := markdown; PlanModifiers := modifiers |}.

(** [programResource.Schema]. *)
Definition Schema : Fw.Schema :=
  {| SchemaDescription := schemaDescription;
     Attributes :=
       <[ "id" :=
            attribute StringType false false true EmptyString "Identifier"
              [UseStateForUnknown] ]>
       (<[ "program" :=
             attribute (ListType StringType) true false false
               ("A list of strings, whose first element is the program to run and whose "
                +:+ "subsequent elements are optional command line arguments to the program. Terraform does "
                +:+ "not execute the program through a shell, so it is not necessary to escape shell "
                +:+ "metacharacters nor add quotes around arguments containing spaces.")
               EmptyString [RequiresReplace] ]>
       (<[ "working_dir" :=
             attribute StringType false true false
               ("Working directory of the program. If not supplied, the program will run "
                +:+ "in the current directory.")
               EmptyString [RequiresReplace] ]>
       (<[ "query" :=
             attribute (MapType StringType) false true false
               queryDescription EmptyString [RequiresReplace] ]>
       (<[ "result" :=
             attribute (MapType StringType) false false true
               queryDescription EmptyString [] ]>
        ∅)))) |}.

(** The fields of [execModelV0] by their [tfsdk] tags. *)
Definition field (name : string) (m : execModelV0) : option Value :=
  if String.eqb name "id" then Some (VString (Id m))
  else if String.eqb name "program" then Some (VList (Program m))
  else if String.eqb name "working_dir" then Some (VString (WorkingDir m))
  else if String.eqb name "query" then Some (VMap (Query m))
  else if String.eqb name "result" then Some (VMap (Result m))
  else None.

(** The type of a value. *)
Definition typeOf (v : Value) : AttrType :=
  match v with
  | VString _ => StringType
  | VList _ => ListType StringType
  | VMap _ => MapType StringType
  end.

(** Storing a value under a tag; a value of another type than the field's
    is not stored. *)
Definition setField (name : string) (v : Value) (m : execModelV0) : execModelV0 :=
  match v with
  | VString s =>
    if String.eqb name "id" then withId m s
    else if String.eqb name "working_dir" then
      {| Id := Id m; Program := Program m; WorkingDir := s;
         Query := Query m; Result := Result m |}
    else m
  | VList l =>
    if String.eqb name "program" then
      {| Id := Id m; Program := l; WorkingDir := WorkingDir m;
         Query := Query m; Result := Result m |}
    else m
  | VMap g =>
    if String.eqb name "query" then
      {| Id := Id m; Program := Program m; WorkingDir := WorkingDir m;
         Query := g; Result := Result m |}
    else if String.eqb name "result" then withResult m g
    else m
  end.


End ProgramResource.

Module Registration.

Import Fw.



End Registration.

(** ** The framework around the resource: planning and the four calls *)

Module Server.

Import Tf.
Import Fw.
Import Provider.

Definition nullValue (t : AttrType) : Value :=
  match t with
  | StringType => VString StringNull
  | ListType _ => VList ListNull
  | MapType _ => VMap MapNull
  end.

(** The value of an attribute in a model that may be absent (no prior
    state on creation). *)
Definition valueIn (name : string) (a : Attribute) (m : option execModelV0)
    : option Value :=
  match m with
  | Some model => ProgramResource.field name model
  | None => Some (nullValue (Type_ a))
  end.

(** The plan modifiers of one attribute applied to the plan: the planned
    value they leave is stored, and the attribute is noted when they ask
    for a replacement. *)
Definition modifyAttribute (config : execModelV0) (state : option execModelV0)
    (kv : string * Attribute) (acc : execModelV0 * list string)
    : execModelV0 * list string :=
  let '(name, a) := kv in
  let '(plan, replace) := acc in
  match ProgramResource.field name config, valueIn name a state,
        ProgramResource.field name plan with
  | Some c, Some s, Some p =>
    let resp :=
      runModifiers (PlanModifiers a)
        {| HasState := bool_decide (is_Some state); HasPlan := true;
           ConfigValue := c; StateValue := s; PlanValue := p |}
        {| NewPlanValue := p; NeedsReplace := false |} in
    (ProgramResource.setField name (NewPlanValue resp) plan,
     if NeedsReplace resp then replace ++ [name] else replace)
  | _, _, _ => acc
  end.

(** The attribute plan modifiers of a schema applied to a proposed plan:
    the plan they leave and the attributes that require the resource to be
    replaced. *)
Definition modifyPlan (schema : Schema) (config : execModelV0)
    (state : option execModelV0) (plan : execModelV0)
    : execModelV0 * list string :=
  fold_left (fun acc kv => modifyAttribute config state kv acc)
    (GoMap.sorted (Attributes schema)) (plan, []).

Definition planOf (model : execModelV0) : Request :=
  {| ReqPlan := {| PlanModel := model; PlanDiags := [] |} |}.

(** The calls of the resource with the responses the framework hands them:
    Create starts without a state; Read, Update and Delete start from the
    prior state; after a Delete without error the framework removes the
    state. *)
Definition CreateResource (h : Exec.Host) (req : Request)
    : Response * list Event :=
  call (Create h req) emptyResponse.

Definition ReadResource (current : execModelV0) : Response * list Event :=
  call Read (readResponse current).

Definition UpdateResource (prior : execModelV0) (req : Request)
    : Response * list Event :=
  call (Update req) {| State := Some prior; Diagnostics := [] |}.

Definition DeleteResource (prior : execModelV0) : Response * list Event :=
  let '(r, events) := call Delete {| State := Some prior; Diagnostics := [] |} in
  (if HasError (Diagnostics r) then r
   else {| State := None; Diagnostics := Diagnostics r |}, events).

(** The calls the framework makes on a resource that has been created. *)
Inductive Op : Type :=
| OpRead
| OpUpdate (req : Request)
| OpDelete.

(** One call on the current state; nothing is called once the state is
    gone.  The result is the state afterwards and the log of the call. *)
Definition step (state : option execModelV0) (op : Op)
    : option execModelV0 * list Event :=
  match state with
  | None => (None, [])
  | Some current =>
    let '(r, events) :=
      match op with
      | OpRead => ReadResource current
      | OpUpdate req => UpdateResource current req
      | OpDelete => DeleteResource current
      end in
    (State r, events)
  end.

Fixpoint run (state : option execModelV0) (ops : list Op)
    : option execModelV0 * list Event :=
  match ops with
  | [] => (state, [])
  | op :: rest =>
    let '(state', events) := step state op in
    let '(final, events') := run state' rest in
    (final, events ++ events')
  end.

End Server.

(** ** Further notions used to state the properties *)

Module Notions.

Import Tf.
Import Fw.
Import Provider.
Import Reading.

Definition oneOfThree (a b c : bool) : bool :=
  match a, b, c with
  | true, false, false | false, true, false | false, false, true => true
  | _, _, _ => false
  end.

(** The planned identity token after [UseStateForUnknown]. *)
Definition plannedId (config state plan : execModelV0) : StringValue :=
  if IsNull (VString (Id state)) then Id plan
  else if negb (IsUnknown (VString (Id plan))) then Id plan
  else if IsUnknown (VString (Id config)) then Id plan
  else Id state.

(** The query entries whose value is not the empty string. *)
Definition nonBlankEntries (elems : gmap string StringValue)
    : gmap string StringValue :=
  filter (fun kv => snd kv <> blank) elems.

(** What of a response does not depend on the planned inputs as such:
    the diagnostics, and the identity token and the result of the state. *)
Definition outcome (r : Response) : list Diagnostic * option (StringValue * MapValue) :=
  (Diagnostics r, (fun m => (Id m, Result m)) <$> State r).

End Notions.

(** ** Further hosts, requests and models *)

Module Cases.

Import Tf.
Import Provider.

(** A host like [Examples.host] whose child writes back what it reads. *)
Definition echo : Exec.Host :=
  {| Exec.isPrintWide := fun _ => false;
     Exec.GOOS := "linux";
     Exec.LookPath := Exec.LookPath (Examples.host (Examples.exits 0 "{}" ""));
     Exec.CommandPath := Exec.CommandPath (Examples.host (Examples.exits 0 "{}" ""));
     Exec.Run := fun cmd =>
       {| Exec.Stdout := Exec.Stdin cmd; Exec.Stderr := EmptyString;
          Exec.End_ := Exec.Exited 0 |} |}.

(** A run that could not be started. *)
Definition notStarted : Exec.Outcome :=
  {| Exec.Stdout := EmptyString; Exec.Stderr := EmptyString;
     Exec.End_ := Exec.Failed "fork/exec /usr/bin/prog: exec format error" |}.

(** A request whose plan did not decode. *)
Definition undecodable : Request :=
  {| ReqPlan :=
       {| PlanDiags := [NewErrorDiagnostic "Value Conversion Error"
                          "An unexpected error was encountered trying to build a value."];
          PlanModel := PlanModel (ReqPlan (Examples.request ["prog"] [])) |} |}.

(** A plan with a null and an unknown element in [program] and a null and
    an unknown value in [query]. *)
Definition withNulls : Request :=
  {| ReqPlan :=
       {| PlanDiags := [];
          PlanModel :=
            {| Id := StringUnknown;
               Program := ListKnown [StringKnown "prog"; StringNull; StringUnknown];
               WorkingDir := StringNull;
               Query := MapKnown (<[ "n" := StringNull ]>
                                  (<[ "u" := StringUnknown ]> ∅));
               Result := MapUnknown |} |} |}.

(** A prior state, and a configuration and a proposed plan with the same
    inputs. *)
Definition stored : execModelV0 :=
  {| Id := StringKnown "example-id";
     Program := ListKnown [StringKnown "prog"];
     WorkingDir := StringNull;
     Query := MapKnown (<[ "k" := StringKnown "v" ]> ∅);
     Result := MapKnown (<[ "a" := StringKnown "x" ]> ∅) |}.



End Cases.

(** * Properties *)

Import Utf8.
Import Tf Provider Reading.

(** ** Strings *)

Lemma append_cons c (s t : string) :
  String.String c s +:+ t = String.String c (s +:+ t).
Proof. reflexivity. Qed.

Lemma append_nil_r (s : string) : s +:+ EmptyString = s.
Proof. induction s as [|c s IH]; [reflexivity|]. by rewrite append_cons, IH. Qed.

Lemma append_assoc (a b c : string) : (a +:+ b) +:+ c = a +:+ (b +:+ c).
Proof. induction a as [|x a IH]; [reflexivity|]. by rewrite !append_cons, IH. Qed.

Lemma prefix_single a c t :
  String.prefix (String.String a EmptyString) (String.String c t) = Ascii.eqb c a.
Proof.
  cbn [String.prefix]. destruct (ascii_dec a c) as [->|Hne].
  - rewrite Ascii.eqb_refl. by destruct t.
  - symmetry. apply Ascii.eqb_neq. congruence.
Qed.

Lemma replaceLoop_quote s :
  Strings.replaceLoop (String.String dquote EmptyString) EmptyString None 0 s
  = withoutQuotes s.
Proof.
  induction s as [|c t IH]; [done|].
  cbn [Strings.replaceLoop Strings.exhausted negb andb withoutQuotes].
  rewrite prefix_single.
  destruct (Ascii.eqb c dquote); cbn; by rewrite IH.
Qed.

Lemma Replace_quote s :
  Strings.Replace s (String.String dquote EmptyString) EmptyString (-1) = withoutQuotes s.
Proof. unfold Strings.Replace. cbn [String.eqb Z.eqb orb Z.ltb Z.compare]. apply replaceLoop_quote. Qed.

Lemma withoutQuotes_app a b : withoutQuotes (a +:+ b) = withoutQuotes a +:+ withoutQuotes b.
Proof. induction a as [|c t IH]; simpl; [done|]. destruct (Ascii.eqb c dquote); simpl; by rewrite IH. Qed.


Lemma byteZ_range c : 0 <= byteZ c < 256.
Proof.
  unfold byteZ. pose proof (N_ascii_bounded c). lia.
Qed.

Lemma byteZ_ofZ z : 0 <= z < 256 -> byteZ (ofZ z) = z.
Proof.
  intros Hz. unfold byteZ, ofZ. rewrite Z.mod_small by lia.
  rewrite N_ascii_embedding by lia. lia.
Qed.

Lemma ofZ_byteZ c : ofZ (byteZ c) = c.
Proof.
  unfold ofZ, byteZ. pose proof (N_ascii_bounded c).
  rewrite Z.mod_small by lia. rewrite N2Z.id. apply ascii_N_embedding.
Qed.

Lemma byteZ_dquote : byteZ dquote = 0x22.
Proof. reflexivity. Qed.

Lemma ofZ_not_dquote_small z : 0 <= z < 256 -> z <> 0x22 -> ofZ z <> dquote.
Proof.
  intros Hz Hne Heq. apply Hne. rewrite <- (byteZ_ofZ z Hz), Heq. reflexivity.
Qed.

Lemma ofZ_not_dquote_high z : Z.testbit z 7 = true -> ofZ z <> dquote.
Proof.
  intros Hbit Heq.
  assert (Hm : z mod 256 = 0x22).
  { rewrite <- byteZ_dquote, <- Heq. unfold ofZ, byteZ.
    pose proof (Z.mod_pos_bound z 256 ltac:(lia)).
    rewrite N_ascii_embedding by lia. lia. }
  change 256 with (2 ^ 8) in Hm.
  assert (Z.testbit (z mod 2 ^ 8) 7 = true) as Hx.
  { rewrite Z.mod_pow2_bits_low by lia. exact Hbit. }
  rewrite Hm in Hx. discriminate.
Qed.

Lemma EncodeRune_head r :
  r <> 0x22 -> exists c t, EncodeRune r = String.String c t /\ c <> dquote.
Proof.
  intros Hr. unfold EncodeRune.
  set (r' := if ValidRune r then r else RuneError).
  assert (Hr' : r' <> 0x22 /\ 0 <= r').
  { subst r'. unfold ValidRune. destruct (0 <=? r) eqn:E0; cbn [andb].
    - destruct (_ && _); [split; [done|lia]|]. unfold RuneError; lia.
    - unfold RuneError; lia. }
  destruct Hr' as [Hne Hpos].
  destruct (r' <=? 0x7F) eqn:E1.
  { eexists _, _. split; [reflexivity|]. apply ofZ_not_dquote_small; lia. }
  assert (forall m x, Z.testbit m 7 = true -> ofZ (Z.lor m x) <> dquote) as Hhigh.
  { intros m x Hm. apply ofZ_not_dquote_high. rewrite Z.lor_spec, Hm. done. }
  destruct (r' <=? 0x7FF); [|destruct (r' <=? 0xFFFF)];
    (eexists _, _; split; [reflexivity|]; by apply Hhigh).
Qed.

Lemma withoutQuotes_head c t : c <> dquote -> withoutQuotes (String.String c t) <> EmptyString.
Proof.
  intros Hc. cbn. destruct (Ascii.eqb_spec c dquote); [done|discriminate].
Qed.

Lemma appendEscapedRune_not_all_quotes w r :
  withoutQuotes (Strconv.appendEscapedRune w r) <> EmptyString.
Proof.
  unfold Strconv.appendEscapedRune.
  destruct ((r =? 0x22) || (r =? 0x5C)) eqn:E1.
  { apply withoutQuotes_head. discriminate. }
  destruct (Strconv.IsPrint w r).
  { destruct (EncodeRune_head r) as (c & t & -> & Hc); [lia|].
    by apply withoutQuotes_head. }
  repeat (match goal with |- context [if ?b then _ else _] => destruct b end;
          try (apply withoutQuotes_head; discriminate)).
Qed.

Lemma withoutQuotes_app_nonempty a b :
  withoutQuotes a <> EmptyString -> withoutQuotes (a +:+ b) <> EmptyString.
Proof.
  rewrite withoutQuotes_app. destruct (withoutQuotes a); [done|discriminate].
Qed.

Lemma quoteLoop_not_all_quotes w c t :
  withoutQuotes (Strconv.quoteLoop w 0 (String.String c t)) <> EmptyString.
Proof.
  cbn [Strconv.quoteLoop].
  destruct (if byteZ c >=? RuneSelf then _ else _) as [r width].
  apply withoutQuotes_app_nonempty.
  destruct (_ && _).
  - apply withoutQuotes_head. discriminate.
  - apply appendEscapedRune_not_all_quotes.
Qed.

Lemma withoutQuotes_Quote w s :
  withoutQuotes (Strconv.Quote w s) = withoutQuotes (Strconv.quoteLoop w 0 s).
Proof.
  unfold Strconv.Quote.
  change (withoutQuotes (String.String dquote ?x)) with (withoutQuotes x).
  rewrite withoutQuotes_app.
  change (withoutQuotes (String.String dquote EmptyString)) with EmptyString.
  apply append_nil_r.
Qed.

(** ** The bounds of the JSON loops are never reached *)

Lemma skipSpace_length s :
  (String.length (Json.skipSpace s) <= String.length s)%nat.
Proof.
  induction s as [|c t IH]; cbn [Json.skipSpace String.length]; [lia|].
  destruct (Json.isSpace c); cbn [String.length]; lia.
Qed.

Lemma emit_Some piece k body rest :
  Json.emit piece k = Some (body, rest) ->
  exists body', k = Some (body', rest).
Proof. destruct k as [[b r]|]; cbn; [|done]. intros [= _ <-]. eauto. Qed.

Lemma stringBody_consumes s : forall skip body rest,
  Json.stringBody skip s = Some (body, rest) ->
  (String.length rest < String.length s)%nat.
Proof.
  induction s as [|c t IH]; intros skip body rest; [done|].
  cbn [Json.stringBody String.length].
  destruct skip as [|k].
  2:{ intros H. apply IH in H. lia. }
  assert (Hemit : forall piece n,
             Json.emit piece (Json.stringBody n t) = Some (body, rest) ->
             (String.length rest < S (String.length t))%nat).
  { intros piece n H. apply emit_Some in H as [b' H]. apply IH in H. lia. }
  destruct (Ascii.eqb c dquote). { intros [= _ <-]. lia. }
  destruct (Ascii.eqb c "\").
  { destruct t as [|e t']; [done|].
    repeat (match goal with
            | |- context [if ?b then _ else _] => destruct b
            | |- context [match ?x with Some _ => _ | None => _ end] => destruct x
            end; try done; try (apply Hemit)). }
  destruct (byteZ c <? 32); [done|].
  destruct (byteZ c <? RuneSelf); [apply Hemit|].
  destruct (DecodeRuneInString _) as [r size]. apply Hemit.
Qed.

Lemma digits_length s :
  (String.length (snd (Json.digits s)) <= String.length s)%nat
  /\ (fst (Json.digits s) <> EmptyString ->
      String.length (snd (Json.digits s)) < String.length s)%nat.
Proof.
  induction s as [|c t [IH1 IH2]]; cbn [Json.digits String.length fst snd].
  { split; [lia|done]. }
  destruct (Json.isDigit c).
  - destruct (Json.digits t) as [ds r]. cbn [fst snd] in *. split; intros; lia.
  - cbn [fst snd String.length]. split; [lia|done].
Qed.

Lemma numberLit_consumes s n rest :
  Json.numberLit s = Some (n, rest) ->
  (String.length rest < String.length s)%nat.
Proof.
  unfold Json.numberLit.
  set (p1 := match s with String.String "-" t => (true, t) | _ => (false, s) end).
  assert (H1 : (String.length (snd p1) <= String.length s)%nat).
  { subst p1. destruct s as [|c t]; [cbn; lia|].
    destruct (Ascii.eqb_spec c "-") as [->|Hne]; [cbn; lia|].
    replace (match String.String c t with
             | String.String "-" t0 => (true, t0)
             | _ => (false, String.String c t)
             end) with (false, String.String c t); [cbn; lia|].
    destruct c as [[] [] [] [] [] [] [] []]; try reflexivity. by destruct Hne. }
  destruct p1 as [neg s1]. cbn [snd] in H1.
  set (p2 := match s1 with String.String "0" t => ("0"%string, t) | _ => Json.digits s1 end).
  assert (H2 : fst p2 <> EmptyString ->
               (String.length (snd p2) < String.length s1)%nat).
  { subst p2. destruct s1 as [|c t]; [by cbn|].
    destruct (Ascii.eqb_spec c "0") as [->|Hne]; [cbn; lia|].
    replace (match String.String c t with
             | String.String "0" t0 => ("0"%string, t0)
             | _ => Json.digits (String.String c t)
             end) with (Json.digits (String.String c t)).
    - apply digits_length.
    - destruct c as [[] [] [] [] [] [] [] []]; try reflexivity. by destruct Hne. }
  destruct p2 as [ip s2]. cbn [fst snd] in H2.
  destruct (String.eqb_spec ip EmptyString) as [|Hip]; [done|].
  specialize (H2 Hip).
  set (frac := match s2 with
               | String.String "." t =>
                 let '(fp, r) := Json.digits t in
                 if String.eqb fp EmptyString then None else Some (fp, r)
               | _ => Some (EmptyString, s2)
               end).
  assert (H3 : forall fp s3, frac = Some (fp, s3) ->
                 (String.length s3 <= String.length s2)%nat).
  { subst frac. intros fp s3. destruct s2 as [|c t]; [intros [= _ <-]; lia|].
    destruct (Ascii.eqb_spec c ".") as [->|Hne].
    - pose proof (digits_length t) as [Hd _].
      destruct (Json.digits t) as [fp' r]. cbn [snd] in Hd.
      destruct (String.eqb fp' EmptyString); [done|]. intros [= _ <-].
      cbn [String.length]. lia.
    - replace (match String.String c t with
               | String.String "." t0 =>
                 let '(fp0, r) := Json.digits t0 in
                 if String.eqb fp0 EmptyString then None else Some (fp0, r)
               | _ => Some (EmptyString, String.String c t)
               end) with (Some (EmptyString, String.String c t)).
      + intros [= _ <-]. lia.
      + destruct c as [[] [] [] [] [] [] [] []]; try reflexivity. by destruct Hne. }
  destruct frac as [[fp s3]|]; [|done]. specialize (H3 fp s3 eq_refl).
  destruct s3 as [|e t]; [intros [= _ <-]; cbn [String.length] in *; lia|].
  destruct (Ascii.eqb e "e" || Ascii.eqb e "E").
  2:{ intros [= _ <-]. lia. }
  set (p4 := match t with
             | String.String "+" t' => (false, t')
             | String.String "-" t' => (true, t')
             | _ => (false, t)
             end).
  assert (H4 : (String.length (snd p4) <= String.length t)%nat).
  { subst p4. destruct t as [|c t']; [cbn; lia|].
    destruct (Ascii.eqb_spec c "+") as [->|Hp]; [cbn; lia|].
    destruct (Ascii.eqb_spec c "-") as [->|Hm]; [cbn; lia|].
    replace (match String.String c t' with
             | String.String "+" t'0 => (false, t'0)
             | String.String "-" t'0 => (true, t'0)
             | _ => (false, String.String c t')
             end) with (false, String.String c t'); [cbn; lia|].
    destruct c as [[] [] [] [] [] [] [] []]; try reflexivity;
      [by destruct Hp|by destruct Hm]. }
  destruct p4 as [en t1]. cbn [snd] in H4.
  pose proof (digits_length t1) as [Hd _].
  destruct (Json.digits t1) as [ep r]. cbn [snd] in Hd.
  destruct (String.eqb ep EmptyString); [done|]. intros [= _ <-].
  cbn [String.length] in *. lia.
Qed.

Lemma substring_length_le n m s :
  (String.length (String.substring n m s) <= m)%nat.
Proof.
  revert n m. induction s as [|c t IH]; intros n m.
  { destruct n, m; cbn; lia. }
  destruct n as [|n]; [destruct m as [|m]|]; cbn [String.substring String.length].
  - lia.
  - specialize (IH 0%nat m). lia.
  - apply IH.
Qed.

Lemma literal_consumes word v s v' rest :
  word <> EmptyString ->
  Json.literal word v s = Some (v', rest) ->
  (String.length rest < String.length s)%nat.
Proof.
  intros Hw. unfold Json.literal.
  destruct (String.prefix word s) eqn:Hp; [|done]. intros [= _ <-].
  pose proof (substring_length_le (String.length word)
                (String.length s - String.length word) s).
  destruct word as [|a w]; [done|]. destruct s as [|c t]; [done|].
  cbn [String.length] in *. lia.
Qed.

Section Loops.

Variable one : string -> option (Json.value * string).

Hypothesis one_consumes : forall s v rest,
  one s = Some (v, rest) -> (String.length rest < String.length s)%nat.

Lemma elements_consumes n : forall s vs rest,
  Json.elements one n s = Some (vs, rest) ->
  (String.length rest < String.length s)%nat.
Proof.
  induction n as [|n IH]; intros s vs rest; [done|].
  cbn [Json.elements].
  destruct (one s) as [[v r]|] eqn:E1; [|done]. apply one_consumes in E1.
  pose proof (skipSpace_length r).
  destruct (Json.skipSpace r) as [|c r']; [done|].
  cbn [String.length] in *.
  destruct (Ascii.eqb_spec c ",") as [->|Hc].
  { destruct (Json.elements one n r') as [[vs' r'']|] eqn:E2; [|done].
    apply IH in E2. intros [= _ <-]. lia. }
  destruct (Ascii.eqb_spec c "]") as [->|Hb].
  { intros [= _ <-]. lia. }
  destruct c as [[] [] [] [] [] [] [] []]; done.
Qed.

(** A bound that covers the input gives the same items as any larger
    one. *)
Lemma elements_bound n : forall m s,
  (String.length s <= n)%nat -> (n <= m)%nat ->
  Json.elements one n s = Json.elements one m s.
Proof.
  induction n as [|n IH]; intros m s Hs Hm.
  { destruct s; [|cbn in Hs; lia]. destruct m as [|m]; [done|].
    cbn [Json.elements]. destruct (one EmptyString) as [[v r]|] eqn:E; [|done].
    apply one_consumes in E. cbn in E. lia. }
  destruct m as [|m]; [lia|]. cbn [Json.elements].
  destruct (one s) as [[v r]|] eqn:E1; [|done]. apply one_consumes in E1.
  pose proof (skipSpace_length r).
  destruct (Json.skipSpace r) as [|c r']; [done|].
  cbn [String.length] in *.
  destruct (Ascii.eqb_spec c ",") as [->|Hc].
  { rewrite (IH m r'); [done|lia|lia]. }
  destruct c as [[] [] [] [] [] [] [] []]; done.
Qed.

Lemma members_consumes n : forall s kvs rest,
  Json.members one n s = Some (kvs, rest) ->
  (String.length rest < String.length s)%nat.
Proof.
  induction n as [|n IH]; intros s kvs rest; [done|].
  cbn [Json.members].
  pose proof (skipSpace_length s).
  destruct (Json.skipSpace s) as [|q t]; [done|].
  destruct (Ascii.eqb q dquote); [|done].
  destruct (Json.stringBody 0 t) as [[k r]|] eqn:E0; [|done].
  apply stringBody_consumes in E0.
  pose proof (skipSpace_length r).
  destruct (Json.skipSpace r) as [|c r1]; [done|].
  cbn [String.length] in *.
  destruct (Ascii.eqb_spec c ":") as [->|Hc].
  2:{ destruct c as [[] [] [] [] [] [] [] []]; done. }
  destruct (one r1) as [[v r2]|] eqn:E1; [|done]. apply one_consumes in E1.
  pose proof (skipSpace_length r2).
  destruct (Json.skipSpace r2) as [|c r3]; [done|].
  cbn [String.length] in *.
  destruct (Ascii.eqb_spec c ",") as [->|Hcomma].
  { destruct (Json.members one n r3) as [[kvs' r4]|] eqn:E2; [|done].
    apply IH in E2. intros [= _ <-]. lia. }
  destruct (Ascii.eqb_spec c "}") as [->|Hb].
  { intros [= _ <-]. lia. }
  destruct c as [[] [] [] [] [] [] [] []]; done.
Qed.

Lemma members_bound n : forall m s,
  (String.length s <= n)%nat -> (n <= m)%nat ->
  Json.members one n s = Json.members one m s.
Proof.
  induction n as [|n IH]; intros m s Hs Hm.
  { destruct s; [|cbn in Hs; lia]. by destruct m. }
  destruct m as [|m]; [lia|]. cbn [Json.members].
  pose proof (skipSpace_length s).
  destruct (Json.skipSpace s) as [|q t]; [done|].
  destruct (Ascii.eqb q dquote); [|done].
  destruct (Json.stringBody 0 t) as [[k r]|] eqn:E0; [|done].
  apply stringBody_consumes in E0.
  pose proof (skipSpace_length r).
  destruct (Json.skipSpace r) as [|c r1]; [done|].
  cbn [String.length] in *.
  destruct (Ascii.eqb_spec c ":") as [->|Hc].
  2:{ destruct c as [[] [] [] [] [] [] [] []]; done. }
  destruct (one r1) as [[v r2]|] eqn:E1; [|done]. apply one_consumes in E1.
  pose proof (skipSpace_length r2).
  destruct (Json.skipSpace r2) as [|c r3]; [done|].
  cbn [String.length] in *.
  destruct (Ascii.eqb_spec c ",") as [->|Hcomma].
  { rewrite (IH m r3); [done|lia|lia]. }
  destruct c as [[] [] [] [] [] [] [] []]; done.
Qed.

End Loops.

Lemma match_brace {A} (s : string) (f : string -> A) (x : A) :
  match s with String.String "}" r => f r | _ => x end
  = match s with
    | String.String c r => if Ascii.eqb c "}" then f r else x
    | EmptyString => x
    end.
Proof.
  destruct s as [|c r]; [done|]. by destruct c as [[] [] [] [] [] [] [] []].
Qed.

Lemma match_bracket {A} (s : string) (f : string -> A) (x : A) :
  match s with String.String "]" r => f r | _ => x end
  = match s with
    | String.String c r => if Ascii.eqb c "]" then f r else x
    | EmptyString => x
    end.
Proof.
  destruct s as [|c r]; [done|]. by destruct c as [[] [] [] [] [] [] [] []].
Qed.

Ltac scalar_cases c t :=
  destruct (Ascii.eqb c dquote);
  [ let E := fresh "E" in
    destruct (Json.stringBody 0 t) as [[? ?]|] eqn:E; [|done];
    apply stringBody_consumes in E; intros [= _ <-];
    cbn [String.length]; lia
  | destruct (Ascii.eqb c "-" || Json.isDigit c);
    [ let E := fresh "E" in
      destruct (Json.numberLit (String.String c t)) as [[? ?]|] eqn:E; [|done];
      apply numberLit_consumes in E; intros [= _ <-];
      cbn [String.length] in *; lia
    | repeat (match goal with
              | |- context [if ?b then _ else _] => destruct b
              end; try done;
              try (let E := fresh "E" in
                   intros E; apply literal_consumes in E; [|done];
                   cbn [String.length] in *; lia)) ] ].

Lemma parseValue_consumes depth : forall s v rest,
  Json.parseValue depth s = Some (v, rest) ->
  (String.length rest < String.length s)%nat.
Proof.
  induction depth as [|d IH]; intros s v rest;
    (destruct s as [|c0 t0]; [done|]);
    pose proof (skipSpace_length (String.String c0 t0)) as Hs;
    unfold Json.parseValue; fold Json.parseValue;
    destruct (Json.skipSpace (String.String c0 t0)) as [|c t]; try done;
    cbn [String.length] in Hs.
  - destruct (Ascii.eqb c "{"); [done|].
    destruct (Ascii.eqb c "["); [done|].
    scalar_cases c t.
  - destruct (Ascii.eqb c "{").
    { rewrite match_brace. pose proof (skipSpace_length t) as Ht.
      destruct (Json.skipSpace t) as [|c' r]; [..|destruct (Ascii.eqb c' "}")].
      2:{ intros [= _ <-]. cbn [String.length] in *. lia. }
      all: destruct (Json.members _ _ t) as [[kvs r']|] eqn:E; [|done];
        apply (members_consumes _ IH) in E; intros [= _ <-];
        cbn [String.length] in *; lia. }
    destruct (Ascii.eqb c "[").
    { rewrite match_bracket. pose proof (skipSpace_length t) as Ht.
      destruct (Json.skipSpace t) as [|c' r]; [..|destruct (Ascii.eqb c' "]")].
      2:{ intros [= _ <-]. cbn [String.length] in *. lia. }
      all: destruct (Json.elements _ _ t) as [[vs r']|] eqn:E; [|done];
        apply (elements_consumes _ IH) in E; intros [= _ <-];
        cbn [String.length] in *; lia. }
    scalar_cases c t.
Qed.

(** The number of bytes left, which is what [parseValue] gives the loops
    as their bound, is as good as any larger bound: a parse never fails
    for want of iterations. *)
Lemma members_bound_suffices depth s m :
  (String.length s <= m)%nat ->
  Json.members (Json.parseValue depth) (String.length s) s
  = Json.members (Json.parseValue depth) m s.
Proof.
  intros Hm. apply members_bound; [apply parseValue_consumes|lia|exact Hm].
Qed.

Lemma elements_bound_suffices depth s m :
  (String.length s <= m)%nat ->
  Json.elements (Json.parseValue depth) (String.length s) s
  = Json.elements (Json.parseValue depth) m s.
Proof.
  intros Hm. apply elements_bound; [apply parseValue_consumes|lia|exact Hm].
Qed.

(** ** Decoding what [json.Marshal] wrote *)

Lemma decode_encoded_byte c rest :
  (byteZ c <? 0x80) = true ->
  Json.stringBody 0 (encodeByte c +:+ rest)
  = Json.emit (String.String c EmptyString) (Json.stringBody 0 rest).
Proof.
  destruct c as [b0 b1 b2 b3 b4 b5 b6 b7]. destruct b7; [by destruct b0, b1, b2, b3, b4, b5, b6|].
  intros _. destruct b0, b1, b2, b3, b4, b5, b6; reflexivity.
Qed.

Lemma decode_encoded_string s rest :
  isASCII s = true ->
  Json.stringBody 0 (Json.encodeLoop 0 true s +:+ String.String dquote rest)
  = Some (s, rest).
Proof.
  induction s as [|c t IH]; cbn [isASCII Json.encodeLoop].
  { intros _. reflexivity. }
  intros Hs. apply andb_prop in Hs as [Hc Ht].
  unfold RuneSelf. rewrite Hc. fold (encodeByte c).
  rewrite append_assoc, (decode_encoded_byte c _ Hc), (IH Ht). reflexivity.
Qed.

Lemma parseValue_encoded_string depth s rest :
  isASCII s = true ->
  Json.parseValue depth (Json.encodeString s +:+ rest) = Some (Json.Str s, rest).
Proof.
  intros Hs. unfold Json.encodeString.
  rewrite append_cons, append_assoc, append_cons.
  change (EmptyString +:+ rest) with rest.
  destruct depth; cbn [Json.parseValue Json.skipSpace];
    change (Json.isSpace dquote) with false; cbv iota;
    change (Ascii.eqb dquote "{") with false;
    change (Ascii.eqb dquote "[") with false;
    change (Ascii.eqb dquote dquote) with true; cbv iota;
    by rewrite (decode_encoded_string s rest Hs).
Qed.

Lemma member_step depth n k v rest :
  isASCII k = true -> isASCII v = true ->
  Json.members (Json.parseValue depth) (S n)
    (Json.encodeString k +:+ ":" +:+ Json.encodeString v +:+ rest)
  = match Json.skipSpace rest with
    | String.String "," r3 =>
      match Json.members (Json.parseValue depth) n r3 with
      | Some (kvs, r4) => Some ((k, Json.Str v) :: kvs, r4)
      | None => None
      end
    | String.String "}" r3 => Some ([(k, Json.Str v)], r3)
    | _ => None
    end.
Proof.
  intros Hk Hv. cbn [Json.members].
  unfold Json.encodeString at 1.
  rewrite append_cons, append_assoc, append_cons.
  change (EmptyString +:+ ?x) with x.
  cbn [Json.skipSpace]. change (Json.isSpace dquote) with false. cbv iota.
  change (Ascii.eqb dquote dquote) with true. cbv iota.
  rewrite (decode_encoded_string k _ Hk).
  rewrite append_cons. change (EmptyString +:+ ?x) with x.
  cbn [Json.skipSpace]. change (Json.isSpace ":") with false. cbv iota.
  rewrite (parseValue_encoded_string depth v rest Hv). reflexivity.
Qed.

Lemma members_encoded depth kvs : forall n rest,
  kvs <> [] -> Forall asciiPair kvs -> (length kvs <= n)%nat ->
  Json.members (Json.parseValue depth) n
    (Json.encodeMembers kvs +:+ "}" +:+ rest)
  = Some (map asMember kvs, rest).
Proof.
  induction kvs as [|[k v] kvs IH]; intros n rest Hne Hall Hn; [done|].
  apply Forall_cons in Hall as [[Hk Hv] Hall]. cbn [fst snd] in Hk, Hv.
  destruct n as [|n]; [cbn in Hn; lia|].
  destruct kvs as [|kv' kvs].
  - cbn [Json.encodeMembers]. rewrite !append_assoc.
    rewrite (member_step depth n k v _ Hk Hv). reflexivity.
  - change (Json.encodeMembers ((k, v) :: kv' :: kvs))
      with (Json.encodeString k +:+ ":" +:+ Json.encodeString v +:+ ","
            +:+ Json.encodeMembers (kv' :: kvs)).
    rewrite !append_assoc.
    rewrite (member_step depth n k v _ Hk Hv).
    rewrite append_cons. change (EmptyString +:+ ?x) with x.
    cbn [Json.skipSpace]. change (Json.isSpace ",") with false. cbv iota.
    rewrite (IH n rest); [done|done|done|]. cbn [length] in *. lia.
Qed.

Lemma insertByKey_perm {V} (kv : string * V) l :
  GoMap.insertByKey kv l ≡ₚ kv :: l.
Proof.
  induction l as [|kv' l IH]; cbn [GoMap.insertByKey]; [done|].
  destruct (String.leb _ _); [done|]. rewrite IH. apply Permutation_swap.
Qed.

Lemma sorted_perm {V} (g : gmap string V) : GoMap.sorted g ≡ₚ map_to_list g.
Proof.
  unfold GoMap.sorted. induction (map_to_list g) as [|kv l IH]; [done|].
  cbn [foldr]. by rewrite insertByKey_perm, IH.
Qed.

Lemma toMap_list_to_map (ms : list (string * Json.value)) :
  NoDup ms.*1 -> Json.toMap ms = list_to_map ms.
Proof.
  intros Hnd. unfold Json.toMap.
  rewrite <- (fold_left_rev_right (fun kv m => <[fst kv := snd kv]> m)).
  change (foldr _ ∅ (rev ms)) with (list_to_map (rev ms) : gmap string Json.value).
  assert (Hp : rev ms ≡ₚ ms) by (symmetry; apply Permutation_rev).
  apply list_to_map_proper; [by rewrite Hp|exact Hp].
Qed.

Lemma firstOverflow_strings kvs :
  Json.firstOverflow (Json.Object (map asMember kvs)) = None.
Proof. cbn [Json.firstOverflow]. by induction kvs as [|kv kvs IH]. Qed.

Lemma maxNestingDepth_positive : exists d, Json.maxNestingDepth = S d.
Proof.
  exists (Z.to_nat 9999). unfold Json.maxNestingDepth.
  change 10000 with (Z.succ 9999). apply Z2Nat.inj_succ. lia.
Qed.

Lemma encodeMembers_head kvs :
  kvs <> [] -> exists body, Json.encodeMembers kvs = String.String dquote body.
Proof.
  destruct kvs as [|[k v] kvs]; [done|]. intros _.
  destruct kvs; cbn [Json.encodeMembers]; unfold Json.encodeString at 1;
    rewrite append_cons; eauto.
Qed.

Lemma parse_encoded_object kvs :
  Forall asciiPair kvs ->
  Json.parse ("{" +:+ Json.encodeMembers kvs +:+ "}")
  = Some (Json.Object (map asMember kvs)).
Proof.
  intros Hall. unfold Json.parse.
  destruct maxNestingDepth_positive as [d ->].
  rewrite append_cons. change (EmptyString +:+ ?x) with x.
  cbn [Json.parseValue Json.skipSpace]. change (Json.isSpace "{") with false.
  cbv iota. change (Ascii.eqb "{" "{") with true. cbv iota.
  destruct (decide (kvs = [])) as [->|Hne]; [reflexivity|].
  destruct (encodeMembers_head kvs Hne) as [body Hb].
  rewrite Hb at 1. rewrite append_cons.
  cbn [Json.skipSpace]. change (Json.isSpace dquote) with false. cbv iota.
  rewrite (members_bound_suffices d _
             (String.length (Json.encodeMembers kvs +:+ "}") + length kvs)) by lia.
  change "}"%string with ("}" +:+ EmptyString) at 3.
  rewrite (members_encoded d kvs _ EmptyString Hne Hall) by lia.
  reflexivity.
Qed.

(** Decoding what [json.Marshal] wrote for a map with ASCII keys and
    values gives the map back, every value a string. *)
Lemma Unmarshal_Marshal (g : gmap string string) :
  map_Forall (fun k v => isASCII k = true /\ isASCII v = true) g ->
  Json.Unmarshal (fst (Json.Marshal (GoMap.Make g)))
  = (GoMap.Make (Json.Str <$> g), None).
Proof.
  intros Hg. cbn [Json.Marshal fst]. unfold Json.Unmarshal.
  assert (Hall : Forall asciiPair (GoMap.sorted g)).
  { rewrite sorted_perm. apply map_Forall_to_list in Hg.
    eapply Forall_impl; [exact Hg|]. by intros [k v]. }
  assert (Hnd : NoDup (map asMember (GoMap.sorted g)).*1).
  { assert (Hk : (map asMember (GoMap.sorted g)).*1 ≡ₚ (map_to_list g).*1).
    { rewrite <- sorted_perm. clear. induction (GoMap.sorted g); cbn; [done|].
      by f_equiv. }
    rewrite Hk. apply NoDup_fst_map_to_list. }
  rewrite (parse_encoded_object _ Hall), firstOverflow_strings.
  do 2 f_equal.
  rewrite (toMap_list_to_map _ Hnd).
  rewrite <- (list_to_map_to_list g) at 2.
  rewrite <- list_to_map_fmap.
  apply list_to_map_proper; [exact Hnd|].
  rewrite <- sorted_perm. clear. induction (GoMap.sorted g) as [|[k v] l IH]; [done|].
  cbn. by f_equiv.
Qed.

Lemma MapValueFrom_strings (g : gmap string string) :
  MapValueFrom (GoMap.Make (Json.Str <$> g)) = (MapKnown (StringKnown <$> g), []).
Proof.
  unfold MapValueFrom. rewrite bool_decide_eq_true_2.
  - f_equal. f_equal. apply map_eq. intros k.
    rewrite lookup_omap, !lookup_fmap. by destruct (g !! k).
  - apply map_Forall_lookup. intros k v. rewrite lookup_fmap.
    destruct (g !! k); [|done]. intros [= <-]. by eexists.
Qed.

(** *** The text the resource takes from a planned string *)

(** The printed form of the empty string is two double quotes; a double
    quote inside a value is printed behind a backslash, a backslash
    doubled, a line feed as backslash and [n]. *)
Example String_printed_forms (w : Z -> bool) :
  Tf.String w (StringKnown EmptyString) = quoted EmptyString
  /\ Tf.String w (StringKnown Examples.quoteInside)
     = quoted ("a\" +:+ String.String dquote "b")
  /\ Tf.String w (StringKnown "a\b") = quoted "a\\b"
  /\ Tf.String w (StringKnown (String.String "010" EmptyString)) = quoted "\n"
  /\ Tf.String w StringNull = "<null>".
Proof. repeat split; reflexivity. Qed.

Section Unquoted.

Variable h : Exec.Host.

Lemma unquoted_known s :
  unquoted h (StringKnown s)
  = withoutQuotes (Strconv.quoteLoop (Exec.isPrintWide h) 0 s).
Proof. unfold unquoted. rewrite Replace_quote. apply withoutQuotes_Quote. Qed.

Lemma unquoted_blank : unquoted h blank = EmptyString.
Proof. reflexivity. Qed.

Lemma unquoted_empty_iff v : unquoted h v = EmptyString <-> v = blank.
Proof.
  split; [|intros ->; apply unquoted_blank].
  destruct v as [| |s]; [discriminate..|].
  rewrite unquoted_known. destruct s as [|c t]; [done|].
  intros Hq. by apply quoteLoop_not_all_quotes in Hq.
Qed.


Lemma programLoop_app elems program :
  programLoop h elems program
  = program ++ map (unquoted h) (nonBlank elems).
Proof.
  revert program. induction elems as [|v rest IH]; intros program.
  { cbn. by rewrite app_nil_r. }
  cbn [programLoop]. unfold nonBlank. rewrite filter_cons.
  destruct (String.eqb_spec (unquoted h v) EmptyString) as [He|Hne].
  - apply unquoted_empty_iff in He. subst v.
    rewrite decide_False by (intros Hx; by apply Hx). apply IH.
  - rewrite decide_True by (intros ->; by apply Hne).
    rewrite IH. cbn [map]. by rewrite <- app_assoc.
Qed.

End Unquoted.

(** *** Diagnostics *)

Lemma elem_of_Append d (a b : list Diagnostic) : d ∈ Append a b <-> d ∈ a \/ d ∈ b.
Proof.
  unfold Append. revert a. induction b as [|x b IH]; intros a; cbn [fold_left].
  { split; [by left|]. intros [?|Hb]; [done|]. by apply elem_of_nil in Hb. }
  rewrite IH. unfold Contains. case_bool_decide as Hx.
  - rewrite elem_of_cons. split; [tauto|]. intros [?|[->|?]]; tauto.
  - rewrite elem_of_app, list_elem_of_singleton, elem_of_cons. tauto.
Qed.

Lemma HasError_elem ds : HasError ds = true <-> exists d, d ∈ ds /\ isError d = true.
Proof.
  unfold HasError. rewrite existsb_exists.
  split; intros (d & Hd & He); exists d; split; try done; by apply list_elem_of_In.
Qed.

Lemma HasError_false ds : HasError ds = false <-> forall d, d ∈ ds -> isError d = false.
Proof.
  split.
  - intros Hn d Hd. destruct (isError d) eqn:E; [|done].
    assert (HasError ds = true) by (apply HasError_elem; eauto). congruence.
  - intros Hall. destruct (HasError ds) eqn:E; [|done].
    apply HasError_elem in E as (d & Hd & He). rewrite (Hall d Hd) in He. done.
Qed.

Lemma HasError_Append a b : HasError (Append a b) = HasError a || HasError b.
Proof.
  apply eq_true_iff_eq. rewrite orb_true_iff, !HasError_elem.
  setoid_rewrite elem_of_Append. split.
  - intros (d & [Ha|Hb] & He); [left|right]; eauto.
  - intros [(d & ? & ?)|(d & ? & ?)]; exists d; eauto.
Qed.

Lemma Append_fresh_error ds summary detail :
  HasError ds = false ->
  Append ds [NewErrorDiagnostic summary detail]
  = ds ++ [NewErrorDiagnostic summary detail].
Proof.
  intros Hds. unfold Append, Contains. cbn [fold_left].
  rewrite bool_decide_eq_false_2; [done|].
  intros Hin. by apply (proj1 (HasError_false ds) Hds) in Hin.
Qed.

Lemma HasError_app a b : HasError (a ++ b) = HasError a || HasError b.
Proof. unfold HasError. apply existsb_app. Qed.

(** *** Create, exit by exit *)

Lemma Marshal_no_error m : snd (Json.Marshal m) = None.
Proof. by destruct m. Qed.

Ltac fail_step :=
  unfold addError, appendDiagnostics, return_;
  cbn [resp log State Diagnostics fst snd String.length Nat.ltb Nat.leb app].

Lemma Create_exits h req :
  HasError (PlanDiags (ReqPlan req)) = false ->
  Exit h (PlanModel (ReqPlan req)) (Append [] (PlanDiags (ReqPlan req)))
    (fst (call (Create h req) emptyResponse))
    (snd (call (Create h req) emptyResponse)).
Proof.
  intros Hplan.
  set (plan := PlanModel (ReqPlan req)).
  set (ds := Append [] (PlanDiags (ReqPlan req))).
  assert (Hds : HasError ds = false).
  { subst ds. by rewrite HasError_Append, Hplan. }
  unfold call, Create, Plan_Get, bind, appendDiagnostics, returnIfHasError.
  cbn [resp log State Diagnostics emptyResponse fst snd].
  fold ds. rewrite Hds. fold plan.
  destruct (programLoop h (ListElements (Program plan)) []) as [|program0 args] eqn:Eprog.
  { fail_step.
    rewrite Append_fresh_error by done. by apply ExitProgramMissing. }
  pose proof (Marshal_no_error (queryLoop h (MapElements (Query plan)))) as Hm.
  assert (Hcmd : forall json,
             json = fst (Json.Marshal (queryLoop h (MapElements (Query plan)))) ->
             Exec.withStdin
               (Exec.withDir (Exec.CommandContext h program0 args)
                  (ValueString (WorkingDir plan))) json
             = command h plan program0 args) by (by intros ? ->).
  destruct (Json.Marshal (queryLoop h (MapElements (Query plan)))) as [queryJson e].
  cbn [snd] in Hm. subst e. rewrite (Hcmd queryJson eq_refl). clear Hcmd.
  destruct (snd (Exec.LookPath h program0)) as [err|] eqn:Elook.
  { fail_step.
    rewrite Append_fresh_error by done. by eapply ExitLookupFailed. }
  set (cmd := command h plan program0 args).
  unfold output, emitEvent, bind, pure. cbn [resp log State Diagnostics app].
  destruct (Exec.result (Exec.Run h cmd)) as [out [e|]] eqn:Erun.
  - destruct e as [stderr state|text].
    + destruct stderr as [|c t] eqn:Estderr.
      * fail_step.
        rewrite Append_fresh_error by done.
        by apply (ExitExecutionFailed h plan ds program0 args out (Exec.ExitError EmptyString state)).
      * fail_step.
        rewrite Append_fresh_error by done.
        by apply (ExitExecutionFailed h plan ds program0 args out
                    (Exec.ExitError (String.String c t) state)).
    + fail_step.
      rewrite Append_fresh_error by done.
      by apply (ExitExecutionFailed h plan ds program0 args out (Exec.OtherError text)).
  - destruct (Json.Unmarshal out) as [result [e|]] eqn:Ejson.
    + fail_step.
      rewrite Append_fresh_error by done.
      by eapply ExitResultMalformed.
    + pose proof (ExitStored h plan ds program0 args out result
                    Eprog Elook Erun Ejson) as HE.
      fold cmd in HE.
      assert (Hmv : snd (MapValueFrom result) = []
                    \/ snd (MapValueFrom result) = [conversionError]).
      { destruct result as [|g]; [by left|]. unfold MapValueFrom.
        case_bool_decide; [by left|by right]. }
      destruct (MapValueFrom result) as [res d]. cbn [fst snd] in HE, Hmv.
      destruct Hmv as [-> | ->]; unfold stateSet; fail_step;
        cbn [length Nat.ltb Nat.leb]; cbn [resp log State Diagnostics fst snd];
        repeat change (Append ?x []) with x.
      * rewrite app_nil_r in HE. rewrite Hds. exact HE.
      * unfold conversionError in *. rewrite Append_fresh_error by done.
        destruct (HasError (ds ++ _)); exact HE.
Qed.

Lemma Create_plan_error h req :
  HasError (PlanDiags (ReqPlan req)) = true ->
  call (Create h req) emptyResponse
  = ({| State := None; Diagnostics := Append [] (PlanDiags (ReqPlan req)) |}, []).
Proof.
  intros Hplan.
  unfold call, Create, Plan_Get, bind, appendDiagnostics, returnIfHasError.
  cbn [resp log State Diagnostics emptyResponse fst snd].
  by rewrite HasError_Append, Hplan.
Qed.

(** *** The query loop *)

Lemma queryLoop_rendered h (elems : gmap string StringValue) :
  queryLoop h elems = GoMap.Make (rendered h elems).
Proof.
  unfold queryLoop, rendered.
  apply (map_fold_weak_ind
           (fun r m => r = GoMap.Make (omap _ m))).
  { by rewrite omap_empty. }
  intros k v m r Hk ->. unfold queryStep.
  destruct (String.eqb (unquoted h v) EmptyString) eqn:E.
  - rewrite omap_insert_None by (by rewrite E).
    rewrite delete_id; [done|]. by rewrite lookup_omap, Hk.
  - erewrite omap_insert_Some by (by rewrite E). done.
Qed.

Lemma Marshal_empty : fst (Json.Marshal (GoMap.Make ∅)) = "{}".
Proof.
  unfold Json.Marshal, GoMap.sorted. cbn [fst]. by rewrite map_to_list_empty.
Qed.

Lemma launched_runLog cmd out : launched (runLog cmd out) = [cmd].
Proof. reflexivity. Qed.

Lemma programLoop_empty_iff h elems :
  programLoop h elems [] = [] <-> nonBlank elems = [].
Proof.
  rewrite programLoop_app. cbn [app].
  destruct (nonBlank elems); cbn [map]; split; congruence.
Qed.

Lemma raised_failed ds summary detail summary' :
  HasError ds = false ->
  raised summary' (failed ds summary detail) <-> summary' = summary.
Proof.
  intros Hds. unfold raised, failed. cbn [Diagnostics]. split.
  - intros (d & Hin & Hsev & Hsum). apply elem_of_app in Hin as [Hin|Hin].
    + apply (proj1 (HasError_false ds) Hds) in Hin.
      unfold isError in Hin. by rewrite Hsev in Hin.
    + apply list_elem_of_singleton in Hin. by subst.
  - intros ->. eexists. split; [apply elem_of_app; right; by apply list_elem_of_singleton|done].
Qed.

Lemma MapValueFrom_diags result :
  snd (MapValueFrom result) = [] \/ snd (MapValueFrom result) = [conversionError].
Proof.
  destruct result as [|g]; [by left|]. unfold MapValueFrom.
  case_bool_decide; [by left|by right].
Qed.

(** C1: with the plan decoded, Create fails with [External Program Missing]
    exactly when no element of the program list is left once the empty
    strings are removed, however many there were and wherever they stood; in
    that case nothing is launched and no state is stored. *)
Theorem C1_program_missing_iff_all_blank (h : Exec.Host) (req : Request) :
  HasError (PlanDiags (ReqPlan req)) = false ->
  let elems := ListElements (Program (PlanModel (ReqPlan req))) in
  let r := fst (call (Create h req) emptyResponse) in
  let events := snd (call (Create h req) emptyResponse) in
  (nonBlank elems = [] ->
   raised ProgramMissing r /\ launched events = [] /\ State r = None)
  /\ (nonBlank elems <> [] -> ~ raised ProgramMissing r).
Proof.
  intros Hplan elems r events.
  pose proof (Create_exits h req Hplan) as HE. fold r events in HE.
  assert (Hds : HasError (Append [] (PlanDiags (ReqPlan req))) = false)
    by (by rewrite HasError_Append, Hplan).
  split.
  - intros Hblank. rewrite <- (programLoop_empty_iff h) in Hblank.
    inversion HE as [Hp Hr He|? ? ? Hp|? ? ? ? Hp|? ? ? ? ? Hp|? ? ? ? Hp];
      try (fold elems in Hp; congruence).
    split; [by apply raised_failed|done].
  - intros Hsome Hraised.
    rewrite <- (programLoop_empty_iff h) in Hsome.
    inversion HE as [Hp Hr He|? ? ? Hp ? Hr|? ? ? ? Hp ? ? Hr
                    |? ? ? ? ? Hp ? ? ? Hr|? ? ? ? Hp ? ? ? Hr];
      try (fold elems in Hp; congruence);
      rewrite <- Hr in Hraised.
    1-3: (apply raised_failed in Hraised; [discriminate|done]).
    destruct Hraised as (d & Hin & Hsev & Hsum). cbn [Diagnostics] in Hin.
    apply elem_of_app in Hin as [Hin|Hin].
    + apply (proj1 (HasError_false _) Hds) in Hin.
      unfold isError in Hin. by rewrite Hsev in Hin.
    + destruct (MapValueFrom_diags result) as [Hd|Hd]; rewrite Hd in Hin.
      * by apply elem_of_nil in Hin.
      * apply list_elem_of_singleton in Hin. subst d. discriminate.
Qed.

Lemma C1_all_blank_witness :
  let h := Examples.host (Examples.exits 0 "{}" "") in
  let blanks := fst (call (Create h (Examples.request [""; ""; ""] [])) emptyResponse) in
  let named := fst (call (Create h (Examples.request [""; "prog"; ""] [])) emptyResponse) in
  (raised ProgramMissing blanks /\ State blanks = None)
  /\ ~ raised ProgramMissing named.
Proof.
  intros h blanks named. split.
  - destruct (C1_program_missing_iff_all_blank h
                (Examples.request [""; ""; ""] []) eq_refl) as [Hall _].
    destruct (Hall eq_refl) as (H1 & _ & H3). split; assumption.
  - destruct (C1_program_missing_iff_all_blank h
                (Examples.request [""; "prog"; ""] []) eq_refl) as [_ Hsome].
    apply Hsome. discriminate.
Defined.

(** *** What is launched *)

Lemma launched_command h req cmd :
  cmd ∈ launched (snd (call (Create h req) emptyResponse)) ->
  HasError (PlanDiags (ReqPlan req)) = false
  /\ exists program0 args,
      programLoop h (ListElements (Program (PlanModel (ReqPlan req)))) []
      = program0 :: args
      /\ snd (Exec.LookPath h program0) = None
      /\ cmd = command h (PlanModel (ReqPlan req)) program0 args
      /\ snd (call (Create h req) emptyResponse)
         = runLog cmd (fst (Exec.result (Exec.Run h cmd))).
Proof.
  intros Hin.
  destruct (HasError (PlanDiags (ReqPlan req))) eqn:Hplan.
  { rewrite (Create_plan_error h req Hplan) in Hin. by apply elem_of_nil in Hin. }
  split; [done|].
  pose proof (Create_exits h req Hplan) as HE.
  remember (fst (call (Create h req) emptyResponse)) as r eqn:Er.
  remember (snd (call (Create h req) emptyResponse)) as events eqn:Eev.
  clear Er Eev.
  inversion HE as [Hp Hr He|? ? ? Hp ? Hr He|p0 args out e Hp Hl Hrun Hr He
                  |p0 args out ? e Hp Hl Hrun ? Hr He|p0 args out ? Hp Hl Hrun ? Hr He];
    subst events;
    try (by apply elem_of_nil in Hin);
    rewrite launched_runLog in Hin; apply list_elem_of_singleton in Hin; subst cmd;
    exists p0, args; rewrite Hrun; done.
Qed.

Lemma command_Stdin h plan program0 args :
  Exec.Stdin (command h plan program0 args)
  = fst (Json.Marshal (GoMap.Make (rendered h (MapElements (Query plan))))).
Proof. unfold command. cbn [Exec.withStdin Exec.Stdin]. by rewrite queryLoop_rendered. Qed.

Lemma command_Args h plan program0 args :
  Exec.Args (command h plan program0 args) = program0 :: args.
Proof. reflexivity. Qed.

Lemma rendered_all_blank h (elems : gmap string StringValue) :
  map_Forall (fun _ v => v = blank) elems -> rendered h elems = ∅.
Proof.
  intros Hall. apply map_empty. intros k. unfold rendered.
  rewrite lookup_omap. destruct (elems !! k) as [v|] eqn:Ek; [|done].
  apply (map_Forall_lookup_1 _ _ _ _ Hall) in Ek. by subst v.
Qed.

(** C10: when the query is absent, or empty, or all its values are the
    empty string, the bytes given to the child on its standard input are the
    two bytes of the empty JSON object. *)
Theorem C10_no_query_sends_empty_object (h : Exec.Host) (req : Request)
    (cmd : Exec.Cmd) :
  map_Forall (fun _ v => v = blank)
    (MapElements (Query (PlanModel (ReqPlan req)))) ->
  cmd ∈ launched (snd (call (Create h req) emptyResponse)) ->
  Exec.Stdin cmd = "{}".
Proof.
  intros Hall Hin.
  apply launched_command in Hin as (_ & p0 & args & _ & _ & -> & _).
  rewrite command_Stdin, (rendered_all_blank h _ Hall). apply Marshal_empty.
Qed.

(** *** Plain strings are printed as they are *)

Lemma byteZ_inj c1 c2 : byteZ c1 = byteZ c2 -> c1 = c2.
Proof. intros H. by rewrite <- (ofZ_byteZ c1), <- (ofZ_byteZ c2), H. Qed.

Lemma appendEscapedRune_plain w c :
  plainByte c = true ->
  Strconv.appendEscapedRune w (byteZ c) = String.String c EmptyString.
Proof.
  unfold plainByte, within. intros Hp.
  apply andb_prop in Hp as [Hp Hbs]. apply andb_prop in Hp as [Hp Hdq].
  apply andb_prop in Hp as [Hlo Hhi].
  apply negb_true_iff, Ascii.eqb_neq in Hbs, Hdq.
  assert (byteZ c <> 0x22) by (intros E; apply Hdq; by apply byteZ_inj).
  assert (byteZ c <> 0x5C) by (intros E; apply Hbs; by apply byteZ_inj).
  unfold Strconv.appendEscapedRune.
  destruct (byteZ c =? 0x22) eqn:E1; [lia|].
  destruct (byteZ c =? 0x5C) eqn:E2; [lia|]. cbn [orb].
  unfold Strconv.IsPrint.
  replace (byteZ c <=? 0xFF) with true by lia.
  rewrite Hlo, Hhi. cbn [andb].
  unfold EncodeRune, ValidRune, isSurrogate, MaxRune.
  replace (0 <=? byteZ c) with true by lia.
  replace (byteZ c <=? 0x10FFFF) with true by lia.
  replace (0xD800 <=? byteZ c) with false by lia. cbn [andb negb].
  replace (byteZ c <=? 0x7F) with true by lia.
  by rewrite ofZ_byteZ.
Qed.

Lemma quoteLoop_plain w s :
  plain s = true -> Strconv.quoteLoop w 0 s = s.
Proof.
  induction s as [|c t IH]; [done|]. cbn [plain]. intros Hp.
  apply andb_prop in Hp as [Hc Ht]. cbn [Strconv.quoteLoop].
  assert (Hr : 0x20 <= byteZ c <= 0x7E).
  { unfold plainByte, within in Hc. lia. }
  unfold RuneSelf, RuneError.
  replace (byteZ c >=? 0x80) with false by lia.
  replace (byteZ c =? 0xFFFD) with false by lia.
  cbn [Nat.eqb andb Nat.sub]. rewrite (appendEscapedRune_plain w c Hc), (IH Ht).
  reflexivity.
Qed.

Lemma withoutQuotes_plain s : plain s = true -> withoutQuotes s = s.
Proof.
  induction s as [|c t IH]; [done|]. cbn [plain withoutQuotes]. intros Hp.
  apply andb_prop in Hp as [Hc Ht]. unfold plainByte in Hc.
  destruct (Ascii.eqb c dquote).
  - by rewrite andb_false_r in Hc.
  - by rewrite (IH Ht).
Qed.

Lemma unquoted_plain h s : plain s = true -> unquoted h (StringKnown s) = s.
Proof.
  intros Hp. rewrite unquoted_known, (quoteLoop_plain _ s Hp).
  by apply withoutQuotes_plain.
Qed.

Lemma rendered_lookup h (elems : gmap string StringValue) k :
  rendered h elems !! k
  = match elems !! k with
    | Some v =>
      if String.eqb (unquoted h v) EmptyString then None else Some (unquoted h v)
    | None => None
    end.
Proof. unfold rendered. rewrite lookup_omap. by destruct (elems !! k). Qed.




Lemma C10_blank_query_witness :
  let h := Examples.host (Examples.exits 0 "{}" "") in
  let req := Examples.request ["prog"] [("a", ""); ("b", "")] in
  Exec.Stdin (command h (PlanModel (ReqPlan req)) "prog" []) = "{}".
Proof.
  intros h req.
  apply (C10_no_query_sends_empty_object h req).
  - refine (bool_decide_unpack _ _). vm_compute. exact I.
  - vm_compute. apply list_elem_of_here.
Defined.




(** *** Exits of a call that launched the child *)

Lemma Create_execution_error h req cmd out e :
  cmd ∈ launched (snd (call (Create h req) emptyResponse)) ->
  Exec.result (Exec.Run h cmd) = (out, Some e) ->
  fst (call (Create h req) emptyResponse)
  = failed (Append [] (PlanDiags (ReqPlan req))) ExecutionFailed
      (executionDetail (Exec.Path cmd) e).
Proof.
  intros Hin Hrun.
  apply launched_command in Hin as (Hplan & p0 & args & Hp & Hl & -> & _).
  pose proof (Create_exits h req Hplan) as HE.
  remember (fst (call (Create h req) emptyResponse)) as r eqn:Er.
  remember (snd (call (Create h req) emptyResponse)) as events eqn:Eev.
  clear Er Eev.
  inversion HE as [Hp'|? ? ? Hp' Hl'|? ? ? ? Hp' Hl' Hrun'
                  |? ? ? ? ? Hp' Hl' Hrun'|? ? ? ? Hp' Hl' Hrun']; subst;
    rewrite Hp in Hp'; try discriminate; injection Hp' as <- <-;
    try congruence.
Qed.

Lemma Create_decoded h req cmd out :
  cmd ∈ launched (snd (call (Create h req) emptyResponse)) ->
  Exec.result (Exec.Run h cmd) = (out, None) ->
  fst (call (Create h req) emptyResponse)
  = match Json.Unmarshal out with
    | (_, Some e) =>
      failed (Append [] (PlanDiags (ReqPlan req))) ResultMalformed
        (resultDetail (Exec.Path cmd) (Json.Error e))
    | (result, None) =>
      {| State := Some (withResult
                          (withId (PlanModel (ReqPlan req)) (StringKnown "example-id"))
                          (fst (MapValueFrom result)));
         Diagnostics := Append [] (PlanDiags (ReqPlan req))
                        ++ snd (MapValueFrom result) |}
    end.
Proof.
  intros Hin Hrun.
  apply launched_command in Hin as (Hplan & p0 & args & Hp & Hl & -> & _).
  pose proof (Create_exits h req Hplan) as HE.
  remember (fst (call (Create h req) emptyResponse)) as r eqn:Er.
  remember (snd (call (Create h req) emptyResponse)) as events eqn:Eev.
  clear Er Eev.
  inversion HE as [Hp'|? ? ? Hp' Hl'|? ? ? ? Hp' Hl' Hrun'
                  |? ? ? ? ? Hp' Hl' Hrun' Hj|? ? ? ? Hp' Hl' Hrun' Hj]; subst;
    rewrite Hp in Hp'; try discriminate; injection Hp' as <- <-;
    try congruence.
  - rewrite Hrun in Hrun'. injection Hrun' as <-. by rewrite Hj.
  - rewrite Hrun in Hrun'. injection Hrun' as <-. by rewrite Hj.
Qed.


Lemma result_signaled o signal b :
  Exec.End_ o = Exec.Signaled signal b ->
  Exec.result o
  = (Exec.Stdout o, Some (Exec.ExitError (Exec.Stderr o) ("signal: " +:+ signal))).
Proof. intros He. unfold Exec.result. by rewrite He. Qed.




(** C6 (amended): when the child is killed by a signal, as it is when the
    caller's deadline or cancellation fires before it has exited, the
    exchange fails with [External Program Execution Failed], which is the
    category of every failed run, and stores nothing; the message holds the
    program path, what was captured from standard error if anything, and the
    state of the process as [os/exec] words it ([signal: killed]); it is the
    same whether or not the kill came from the deadline. *)
Theorem C6_killed_child_is_execution_failure (h : Exec.Host) (req : Request)
    (cmd : Exec.Cmd) (signal : string) (byContext : bool) :
  cmd ∈ launched (snd (call (Create h req) emptyResponse)) ->
  Exec.End_ (Exec.Run h cmd) = Exec.Signaled signal byContext ->
  let r := fst (call (Create h req) emptyResponse) in
  let stderr := Exec.Stderr (Exec.Run h cmd) in
  State r = None
  /\ Diagnostics r
     = Append [] (PlanDiags (ReqPlan req))
       ++ [NewErrorDiagnostic ExecutionFailed
             (if String.eqb stderr EmptyString
              then exitDetailBare (Exec.Path cmd) ("signal: " +:+ signal)
              else exitDetailWithStderr (Exec.Path cmd) stderr
                     ("signal: " +:+ signal))].
Proof.
  intros Hin Hend r stderr.
  pose proof (Create_execution_error h req cmd _ _ Hin
                (result_signaled _ _ _ Hend)) as Hr.
  fold r stderr in Hr. by rewrite Hr.
Qed.

Lemma C6_deadline_kill_witness :
  let h := Examples.host (Examples.killed true) in
  let req := Examples.request ["prog"; "1205"] [] in
  Diagnostics (fst (call (Create h req) emptyResponse))
  = [NewErrorDiagnostic ExecutionFailed
       (exitDetailBare "/usr/bin/prog" "signal: killed")].
Proof.
  intros h req.
  refine (proj2 (C6_killed_child_is_execution_failure h req
                   (command h (PlanModel (ReqPlan req)) "prog" ["1205"])
                   "killed" true _ _)).
  - vm_compute. apply list_elem_of_here.
  - reflexivity.
Defined.

(** C6, the claim as stated fails: the message reported when the deadline
    killed the child does not tell that the time ran out; Create reports the
    very same message for a child killed by a signal that had nothing to do
    with the deadline. *)
Lemma C6_message_does_not_tell_deadline :
  let h := Examples.host (Examples.killed true) in
  let req := Examples.request ["prog"; "1205"] [] in
  let detail := exitDetailBare "/usr/bin/prog" "signal: killed" in
  (exists cmd,
      launched (snd (call (Create h req) emptyResponse)) = [cmd]
      /\ byDeadline (Exec.End_ (Exec.Run h cmd)))
  /\ Diagnostics (fst (call (Create h req) emptyResponse))
     = [NewErrorDiagnostic ExecutionFailed detail]
  /\ ~ tellsDeadline detail.
Proof.
  cbv zeta. split; [|split].
  - eexists. split; [vm_compute; reflexivity|]. by exists "killed".
  - vm_compute. reflexivity.
  - intros Htells.
    destruct (Htells (Examples.host (Examples.killed false))
                (Examples.request ["prog"; "1205"] [])
                (command (Examples.host (Examples.killed false))
                   (PlanModel (ReqPlan (Examples.request ["prog"; "1205"] [])))
                   "prog" ["1205"])) as [signal Hs].
    + vm_compute. apply list_elem_of_here.
    + vm_compute. apply list_elem_of_here.
    + discriminate Hs.
Qed.

(** C5: Read leaves the response it is given, and with it the stored
    state, the captured result and the identity token, as they are, and
    launches nothing. *)
Theorem C5_read_changes_nothing (r : Response) :
  fst (call Read r) = r
  /\ snd (call Read r) = []
  /\ launched (snd (call Read r)) = [].
Proof. by destruct r. Qed.

(** C7: every exchange that succeeds stores the identity token
    [example-id], whatever the child wrote; two successful exchanges carry
    the same token. *)
Theorem C7_identity_token_is_constant (h1 h2 : Exec.Host) (req1 req2 : Request) :
  let r1 := fst (call (Create h1 req1) emptyResponse) in
  let r2 := fst (call (Create h2 req2) emptyResponse) in
  succeeded r1 -> succeeded r2 ->
  exists m1 m2,
    State r1 = Some m1 /\ State r2 = Some m2
    /\ Id m1 = StringKnown "example-id" /\ Id m2 = Id m1.
Proof.
  assert (Hone : forall h req,
             succeeded (fst (call (Create h req) emptyResponse)) ->
             exists m, State (fst (call (Create h req) emptyResponse)) = Some m
                       /\ Id m = StringKnown "example-id").
  { intros h req. unfold succeeded.
    destruct (HasError (PlanDiags (ReqPlan req))) eqn:Hplan.
    { rewrite (Create_plan_error h req Hplan). cbn [fst Diagnostics].
      by rewrite HasError_Append, Hplan. }
    pose proof (Create_exits h req Hplan) as HE.
    remember (fst (call (Create h req) emptyResponse)) as r eqn:Er.
    remember (snd (call (Create h req) emptyResponse)) as events eqn:Eev.
    clear Er Eev.
    inversion HE; subst; unfold failed; cbn [Diagnostics State];
      try (rewrite HasError_app; cbn; rewrite orb_true_r; discriminate).
    intros _. by eexists. }
  intros r1 r2 H1 H2.
  destruct (Hone h1 req1 H1) as (m1 & Hs1 & Hi1).
  destruct (Hone h2 req2 H2) as (m2 & Hs2 & Hi2).
  exists m1, m2. by rewrite Hi2, Hi1.
Qed.

Lemma C7_two_outputs_witness :
  let r1 := fst (call (Create (Examples.host (Examples.exits 0 Examples.stringOutput ""))
                         (Examples.request ["prog"] [])) emptyResponse) in
  let r2 := fst (call (Create (Examples.host (Examples.exits 0 "{}" ""))
                         (Examples.request ["prog"; "x"] [("k", "v")])) emptyResponse) in
  exists m1 m2,
    State r1 = Some m1 /\ State r2 = Some m2
    /\ Id m1 = StringKnown "example-id" /\ Id m2 = Id m1.
Proof.
  intros r1 r2.
  apply (C7_identity_token_is_constant
           (Examples.host (Examples.exits 0 Examples.stringOutput ""))
           (Examples.host (Examples.exits 0 "{}" ""))
           (Examples.request ["prog"] [])
           (Examples.request ["prog"; "x"] [("k", "v")])).
  - vm_compute. reflexivity.
  - vm_compute. reflexivity.
Defined.

(** *** The decode stage *)

(** With the child run to a zero exit, [Unexpected External Program
    Results] is reported exactly when [json.Unmarshal] returns an error. *)
Lemma malformed_iff_unmarshal_error h req cmd out :
  cmd ∈ launched (snd (call (Create h req) emptyResponse)) ->
  Exec.result (Exec.Run h cmd) = (out, None) ->
  raised ResultMalformed (fst (call (Create h req) emptyResponse))
  <-> snd (Json.Unmarshal out) <> None.
Proof.
  intros Hin Hrun. rewrite (Create_decoded h req cmd out Hin Hrun).
  apply launched_command in Hin as (Hplan & _).
  assert (Hds : HasError (Append [] (PlanDiags (ReqPlan req))) = false)
    by (by rewrite HasError_Append, Hplan).
  destruct (Json.Unmarshal out) as [result [e|]]; cbn [snd].
  - rewrite raised_failed by done. split; [discriminate|done].
  - split; [|done]. intros (d & Hd & Hsev & Hsum). cbn [Diagnostics] in Hd.
    apply elem_of_app in Hd as [Hd|Hd].
    + apply (proj1 (HasError_false _) Hds) in Hd.
      unfold isError in Hd. by rewrite Hsev in Hd.
    + destruct (MapValueFrom_diags result) as [Hm|Hm]; rewrite Hm in Hd.
      * by apply elem_of_nil in Hd.
      * apply list_elem_of_singleton in Hd. subst d. discriminate.
Qed.

(** Every exit by one of the explicit failures leaves the state unset. *)
Lemma failed_exits_store_nothing h req summary :
  HasError (PlanDiags (ReqPlan req)) = false ->
  summary ∈ [ProgramMissing; ProgramLookupFailed; ExecutionFailed; ResultMalformed] ->
  raised summary (fst (call (Create h req) emptyResponse)) ->
  State (fst (call (Create h req) emptyResponse)) = None.
Proof.
  intros Hplan Hsum Hraised.
  assert (Hds : HasError (Append [] (PlanDiags (ReqPlan req))) = false)
    by (by rewrite HasError_Append, Hplan).
  pose proof (Create_exits h req Hplan) as HE.
  remember (fst (call (Create h req) emptyResponse)) as r eqn:Er.
  remember (snd (call (Create h req) emptyResponse)) as events eqn:Eev.
  clear Er Eev.
  inversion HE as [| | | |? ? ? result]; subst; try done.
  exfalso. destruct Hraised as (d & Hd & Hsev & Hs). cbn [Diagnostics] in Hd.
  apply elem_of_app in Hd as [Hd|Hd].
  - apply (proj1 (HasError_false _) Hds) in Hd.
    unfold isError in Hd. by rewrite Hsev in Hd.
  - destruct (MapValueFrom_diags result) as [Hm|Hm]; rewrite Hm in Hd.
    + by apply elem_of_nil in Hd.
    + apply list_elem_of_singleton in Hd. subst d. cbn in Hs. subst summary.
      repeat (apply elem_of_cons in Hsum as [Hsum|Hsum]; [discriminate|]).
      by apply elem_of_nil in Hsum.
Qed.

(** C2, at a child that prints an object whose one value is the number 1:
    [json.Unmarshal] into the map of [interface{}] values accepts the
    output, so [Unexpected External Program Results] is not reported; the
    value is refused only by the conversion to a map of strings, under
    another title. *)
Theorem C2_number_value_is_not_reported_malformed :
  let h := Examples.host (Examples.exits 0 Examples.numberOutput "") in
  let r := fst (call (Create h (Examples.request ["prog"] [])) emptyResponse) in
  Json.Unmarshal Examples.numberOutput
  = (GoMap.Make {[ "a" := Json.Number "1" ]}, None)
  /\ Diagnostics r = [conversionError]
  /\ ~ raised ResultMalformed r.
Proof.
  cbv zeta. split; [vm_compute; reflexivity|].
  assert (Hd : Diagnostics
                 (fst (call (Create (Examples.host
                                       (Examples.exits 0 Examples.numberOutput ""))
                               (Examples.request ["prog"] [])) emptyResponse))
               = [conversionError]) by (vm_compute; reflexivity).
  split; [exact Hd|]. intros (d & Hin & _ & Hsum). rewrite Hd in Hin.
  apply list_elem_of_singleton in Hin. subst d. discriminate.
Qed.

(** The output [null] is accepted: the exchange succeeds with the null
    map as its result. *)
Lemma null_output_is_accepted :
  let h := Examples.host (Examples.exits 0 "null" "") in
  let r := fst (call (Create h (Examples.request ["prog"] [])) emptyResponse) in
  Diagnostics r = [] /\ (Result <$> State r) = Some MapNull.
Proof. cbv zeta. split; vm_compute; reflexivity. Qed.

(** Round trip: a child that exits with status 0 after writing its
    standard input back on its standard output gives, for a query with
    ASCII keys and rendered values, the rendered query as the stored
    result, without any diagnostic of Create's. *)
Lemma echo_round_trip h req cmd :
  cmd ∈ launched (snd (call (Create h req) emptyResponse)) ->
  Exec.result (Exec.Run h cmd) = (Exec.Stdin cmd, None) ->
  let elems := MapElements (Query (PlanModel (ReqPlan req))) in
  map_Forall (fun k a => isASCII k = true /\ isASCII a = true) (rendered h elems) ->
  fst (call (Create h req) emptyResponse)
  = {| State := Some (withResult
                        (withId (PlanModel (ReqPlan req)) (StringKnown "example-id"))
                        (MapKnown (StringKnown <$> rendered h elems)));
       Diagnostics := Append [] (PlanDiags (ReqPlan req)) |}.
Proof.
  intros Hin Hrun elems Hascii.
  rewrite (Create_decoded h req cmd _ Hin Hrun).
  apply launched_command in Hin as (_ & p0 & args & _ & _ & -> & _).
  rewrite command_Stdin. fold elems.
  rewrite (Unmarshal_Marshal _ Hascii), MapValueFrom_strings.
  cbn [fst snd]. by rewrite app_nil_r.
Qed.

(** C3, at the same child: the conversion of the decoded output fails, the
    response carries an error, and yet the state has been set, with the
    identity token and an unknown result. *)
Theorem C3_state_is_set_though_decoding_failed :
  let h := Examples.host (Examples.exits 0 Examples.numberOutput "") in
  let req := Examples.request ["prog"] [] in
  let r := fst (call (Create h req) emptyResponse) in
  HasError (Diagnostics r) = true
  /\ State r
     = Some (withResult (withId (PlanModel (ReqPlan req)) (StringKnown "example-id"))
               MapUnknown).
Proof. cbv zeta. split; vm_compute; reflexivity. Qed.

(** * Further properties *)

Import Fw.
Import Notions.

(** ** Create before the launch *)

Lemma clean_diagnostics req :
  HasError (PlanDiags (ReqPlan req)) = false ->
  HasError (Append [] (PlanDiags (ReqPlan req))) = false.
Proof. intros H. by rewrite HasError_Append, H. Qed.

(** X1: when decoding the plan reports an error, Create returns at once:
    the diagnostics are those of the decoding, no state is stored, nothing
    is traced and nothing is launched, whatever the plan holds. *)
Theorem X1_plan_error_stops_create (h : Exec.Host) (req : Request) :
  HasError (PlanDiags (ReqPlan req)) = true ->
  let r := fst (Server.CreateResource h req) in
  Diagnostics r = Append [] (PlanDiags (ReqPlan req))
  /\ State r = None
  /\ snd (Server.CreateResource h req) = [].
Proof.
  intros Hplan r. subst r. unfold Server.CreateResource.
  by rewrite (Create_plan_error h req Hplan).
Qed.

Lemma X1_undecodable_plan_witness :
  let h := Examples.host (Examples.exits 0 Examples.stringOutput "") in
  let r := fst (Server.CreateResource h Cases.undecodable) in
  Diagnostics r = Append [] (PlanDiags (ReqPlan Cases.undecodable))
  /\ State r = None
  /\ snd (Server.CreateResource h Cases.undecodable) = [].
Proof.
  intros h. apply (X1_plan_error_stops_create h Cases.undecodable). reflexivity.
Defined.

(** X2: with the plan decoded and at least one element that is not the
    empty string, the first such element, in the form the resource renders
    it, is looked up; when the lookup fails Create reports [External
    Program Lookup Failed] with the platform, that program name and the
    error of the lookup, stores no state and launches nothing. *)
Theorem X2_lookup_failure (h : Exec.Host) (req : Request)
    (first : StringValue) (others : list StringValue) (err : string) :
  HasError (PlanDiags (ReqPlan req)) = false ->
  nonBlank (ListElements (Program (PlanModel (ReqPlan req)))) = first :: others ->
  snd (Exec.LookPath h (unquoted h first)) = Some err ->
  Server.CreateResource h req
  = ({| State := None;
        Diagnostics :=
          Append [] (PlanDiags (ReqPlan req))
          ++ [NewErrorDiagnostic ProgramLookupFailed
                (lookupDetail (Exec.GOOS h) (unquoted h first) err)] |},
     []).
Proof.
  intros Hplan Hnb Hlook. unfold Server.CreateResource.
  pose proof (Create_exits h req Hplan) as HE.
  destruct (call (Create h req) emptyResponse) as [r events].
  cbn [fst snd] in HE.
  assert (Hp : programLoop h (ListElements (Program (PlanModel (ReqPlan req)))) []
               = unquoted h first :: map (unquoted h) others).
  { by rewrite programLoop_app, Hnb. }
  inversion HE as [Hp'|? ? ? Hp' Hl'|? ? ? ? Hp' Hl'|? ? ? ? ? Hp' Hl'|? ? ? ? Hp' Hl'];
    subst; rewrite Hp in Hp'; try discriminate; injection Hp' as <- <-;
    try congruence.
  rewrite Hlook in Hl'. by injection Hl' as <-.
Qed.

Lemma X2_unknown_program_witness :
  let h := Examples.host (Examples.exits 0 Examples.stringOutput "") in
  let req := Examples.request [""; "nope"; "prog"] [] in
  Server.CreateResource h req
  = ({| State := None;
        Diagnostics :=
          Append [] (PlanDiags (ReqPlan req))
          ++ [NewErrorDiagnostic ProgramLookupFailed
                (lookupDetail (Exec.GOOS h) (unquoted h (StringKnown "nope"))
                   "executable file not found in $PATH")] |},
     []).
Proof.
  intros h req.
  apply (X2_lookup_failure h req (StringKnown "nope") [StringKnown "prog"]).
  - reflexivity.
  - vm_compute. reflexivity.
  - vm_compute. reflexivity.
Defined.

(** ** The command *)

Lemma nonBlank_known (args : list string) :
  nonBlank (map StringKnown args)
  = map StringKnown (filter (fun a => a <> EmptyString) args).
Proof.
  unfold nonBlank. induction args as [|a args IH]; [done|].
  cbn [map]. rewrite !filter_cons, IH. unfold blank.
  repeat case_decide; cbn [map]; try done; exfalso; naive_solver.
Qed.

Lemma map_unquoted_plain h (args : list string) :
  Forall (fun a => plain a = true) args ->
  map (unquoted h) (map StringKnown args) = args.
Proof.
  induction 1 as [|a args Ha _ IH]; [done|].
  cbn [map]. by rewrite (unquoted_plain h a Ha), IH.
Qed.

(** X3: for a program list of known strings made of printable ASCII other
    than the double quote and the backslash, the command that is launched
    has as its argument vector the elements that are not empty, as they
    are and in their order, wherever the empty ones stood; its path is the
    one [exec.Command] records for the first of them and its directory is
    the planned working directory as it is, the empty one when that is
    null. *)
Theorem X3_command_of_plain_program (h : Exec.Host) (req : Request)
    (args : list string) (cmd : Exec.Cmd) :
  Program (PlanModel (ReqPlan req)) = ListKnown (map StringKnown args) ->
  Forall (fun a => plain a = true) args ->
  cmd ∈ launched (snd (Server.CreateResource h req)) ->
  Exec.Args cmd = filter (fun a => a <> EmptyString) args
  /\ Exec.Path cmd = Exec.CommandPath h (hd EmptyString (Exec.Args cmd))
  /\ Exec.Dir cmd = ValueString (WorkingDir (PlanModel (ReqPlan req))).
Proof.
  intros Hprog Hplain Hin. unfold Server.CreateResource in Hin.
  apply launched_command in Hin as (_ & p0 & rest & Hp & _ & -> & _).
  rewrite Hprog in Hp. cbn [ListElements] in Hp.
  rewrite programLoop_app, nonBlank_known in Hp. cbn [app] in Hp.
  rewrite map_unquoted_plain in Hp.
  2:{ apply Forall_forall. intros a Ha. apply list_elem_of_filter in Ha as [_ Ha].
      by apply (proj1 (Forall_forall _ _) Hplain). }
  rewrite command_Args, <- Hp. split; [done|]. by rewrite Hp.
Qed.

Lemma X3_gaps_in_program_witness :
  let h := Examples.host (Examples.exits 0 Examples.stringOutput "") in
  let req := Examples.request [""; "prog"; ""; "-x"] [] in
  let cmd := command h (PlanModel (ReqPlan req)) "prog" ["-x"] in
  Exec.Args cmd = filter (fun a => a <> EmptyString) [""; "prog"; ""; "-x"]
  /\ Exec.Path cmd = Exec.CommandPath h (hd EmptyString (Exec.Args cmd))
  /\ Exec.Dir cmd = ValueString (WorkingDir (PlanModel (ReqPlan req))).
Proof.
  intros h req cmd.
  apply (X3_command_of_plain_program h req [""; "prog"; ""; "-x"] cmd).
  - reflexivity.
  - repeat constructor.
  - vm_compute. apply list_elem_of_here.
Defined.

(** X4: an element of the program list that is null reaches the child as
    the argument [<null>], and an unknown one as [<unknown>]; the same
    texts are sent as the values of query entries that are null or
    unknown. *)
Theorem X4_null_is_passed_as_text (h : Exec.Host) (req : Request) (cmd : Exec.Cmd) :
  cmd ∈ launched (snd (Server.CreateResource h req)) ->
  let plan := PlanModel (ReqPlan req) in
  (StringNull ∈ ListElements (Program plan) -> "<null>"%string ∈ Exec.Args cmd)
  /\ (StringUnknown ∈ ListElements (Program plan) ->
      "<unknown>"%string ∈ Exec.Args cmd)
  /\ (exists sent,
         Exec.Stdin cmd = fst (Json.Marshal (GoMap.Make sent))
         /\ (forall k, MapElements (Query plan) !! k = Some StringNull ->
                       sent !! k = Some "<null>"%string)
         /\ (forall k, MapElements (Query plan) !! k = Some StringUnknown ->
                       sent !! k = Some "<unknown>"%string)).
Proof.
  intros Hin plan. unfold Server.CreateResource in Hin.
  apply launched_command in Hin as (_ & p0 & rest & Hp & _ & -> & _).
  fold plan in Hp |- *.
  rewrite command_Args, <- Hp, programLoop_app. cbn [app].
  assert (Hmem : forall v : StringValue,
             v <> blank -> v ∈ ListElements (Program plan) ->
             unquoted h v ∈ map (unquoted h) (nonBlank (ListElements (Program plan)))).
  { intros v Hv Hel. apply list_elem_of_fmap. exists v. split; [done|].
    unfold nonBlank. by apply list_elem_of_filter. }
  split; [|split].
  - intros Hel. by apply (Hmem StringNull).
  - intros Hel. by apply (Hmem StringUnknown).
  - exists (rendered h (MapElements (Query plan))).
    split; [apply command_Stdin|].
    split; intros k Hk; by rewrite rendered_lookup, Hk.
Qed.

Lemma X4_null_argument_witness :
  let h := Examples.host (Examples.exits 0 Examples.stringOutput "") in
  let plan := PlanModel (ReqPlan Cases.withNulls) in
  let cmd := command h plan "prog" ["<null>"; "<unknown>"] in
  "<null>"%string ∈ Exec.Args cmd /\ "<unknown>"%string ∈ Exec.Args cmd.
Proof.
  intros h plan cmd.
  destruct (X4_null_is_passed_as_text h Cases.withNulls cmd) as (Hn & Hu & _).
  - vm_compute. apply list_elem_of_here.
  - split.
    + apply Hn. vm_compute. apply list_elem_of_further, list_elem_of_here.
    + apply Hu. vm_compute.
      apply list_elem_of_further, list_elem_of_further, list_elem_of_here.
Defined.

(** ** The launch and its trace *)

(** X5: a call of Create launches the child at most once; when it does,
    its log is exactly a trace record with the command line, the launch,
    and a trace record with the command line and the bytes the child wrote
    on its standard output; otherwise the log is empty. *)
Theorem X5_one_launch_between_two_traces (h : Exec.Host) (req : Request) :
  let events := snd (Server.CreateResource h req) in
  events = []
  \/ exists cmd,
      events
      = [ Trace "Executing external program" [("program", Exec.String_ cmd)];
          Launch cmd;
          Trace "Executed external program"
            [("program", Exec.String_ cmd);
             ("output", Exec.Stdout (Exec.Run h cmd))] ].
Proof.
  cbv zeta. unfold Server.CreateResource.
  destruct (launched (snd (call (Create h req) emptyResponse))) as [|cmd l] eqn:El.
  - destruct (HasError (PlanDiags (ReqPlan req))) eqn:Hplan.
    { left. by rewrite (Create_plan_error h req Hplan). }
    pose proof (Create_exits h req Hplan) as HE.
    destruct (call (Create h req) emptyResponse) as [r events].
    cbn [fst snd] in *. inversion HE; subst; try (by left); discriminate El.
  - right. exists cmd.
    assert (Hin : cmd ∈ launched (snd (call (Create h req) emptyResponse))).
    { rewrite El. apply list_elem_of_here. }
    apply launched_command in Hin as (_ & _ & _ & _ & _ & _ & ->).
    reflexivity.
Qed.

(** X6: when the command cannot be run at all, so that [cmd.Output]
    returns an error that is not an exit error, Create reports [External
    Program Execution Failed] with the program path and the text of that
    error, and stores no state. *)
Theorem X6_run_error (h : Exec.Host) (req : Request) (cmd : Exec.Cmd)
    (err : string) :
  cmd ∈ launched (snd (Server.CreateResource h req)) ->
  Exec.End_ (Exec.Run h cmd) = Exec.Failed err ->
  fst (Server.CreateResource h req)
  = {| State := None;
       Diagnostics :=
         Append [] (PlanDiags (ReqPlan req))
         ++ [NewErrorDiagnostic ExecutionFailed
               (executionIntro +:+ (nl +:+ nl +:+ "Program: " +:+ Exec.Path cmd)
                +:+ (nl +:+ "Error: " +:+ err))] |}.
Proof.
  intros Hin Hend. unfold Server.CreateResource in *.
  rewrite (Create_execution_error h req cmd (Exec.Stdout (Exec.Run h cmd))
             (Exec.OtherError err) Hin); [done|].
  unfold Exec.result. by rewrite Hend.
Qed.


Lemma X6_not_started_witness :
  let h := Examples.host Cases.notStarted in
  let req := Examples.request ["prog"] [] in
  fst (Server.CreateResource h req)
  = {| State := None;
       Diagnostics :=
         Append [] (PlanDiags (ReqPlan req))
         ++ [NewErrorDiagnostic ExecutionFailed
               (executionIntro
                +:+ (nl +:+ nl +:+ "Program: "
                     +:+ Exec.Path (command h (PlanModel (ReqPlan req)) "prog" []))
                +:+ (nl +:+ "Error: "
                     +:+ "fork/exec /usr/bin/prog: exec format error"))] |}.
Proof.
  intros h req.
  apply (X6_run_error h req (command h (PlanModel (ReqPlan req)) "prog" [])).
  - vm_compute. apply list_elem_of_here.
  - reflexivity.
Defined.

(** ** The decode stage *)

Lemma result_zero o :
  Exec.End_ o = Exec.Exited 0 -> Exec.result o = (Exec.Stdout o, None).
Proof. intros He. unfold Exec.result. by rewrite He. Qed.

(** X7: after a zero exit, [Unexpected External Program Results] is
    reported exactly when [json.Unmarshal] of the standard output returns
    an error; the detail then carries the program path and the text of
    that error, and no state is stored. *)
Theorem X7_malformed_iff_unmarshal_fails (h : Exec.Host) (req : Request)
    (cmd : Exec.Cmd) :
  cmd ∈ launched (snd (Server.CreateResource h req)) ->
  Exec.End_ (Exec.Run h cmd) = Exec.Exited 0 ->
  let r := fst (Server.CreateResource h req) in
  let decoded := Json.Unmarshal (Exec.Stdout (Exec.Run h cmd)) in
  (raised ResultMalformed r <-> snd decoded <> None)
  /\ (forall e, snd decoded = Some e ->
        r = {| State := None;
               Diagnostics :=
                 Append [] (PlanDiags (ReqPlan req))
                 ++ [NewErrorDiagnostic ResultMalformed
                       (resultDetail (Exec.Path cmd) (Json.Error e))] |}).
Proof.
  intros Hin Hend r decoded. subst r decoded. unfold Server.CreateResource in *.
  pose proof (result_zero _ Hend) as Hrun. split.
  - by apply (malformed_iff_unmarshal_error h req cmd).
  - intros e He. rewrite (Create_decoded h req cmd _ Hin Hrun).
    destruct (Json.Unmarshal _) as [result o]. cbn [snd] in He. by subst o.
Qed.

Lemma X7_array_output_witness :
  let h := Examples.host (Examples.exits 0 "[]" "") in
  let req := Examples.request ["prog"] [] in
  raised ResultMalformed (fst (Server.CreateResource h req)).
Proof.
  intros h req.
  destruct (X7_malformed_iff_unmarshal_fails h req
              (command h (PlanModel (ReqPlan req)) "prog" [])) as [[_ Hraised] _].
  - vm_compute. apply list_elem_of_here.
  - reflexivity.
  - apply Hraised. vm_compute. discriminate.
Defined.

Lemma parseValue_blank depth s :
  Json.skipSpace s = EmptyString -> Json.parseValue depth s = None.
Proof. intros Hs. destruct depth; cbn [Json.parseValue]; by rewrite Hs. Qed.

(** X8: a child that exits with status 0 and has written nothing, or
    only white space, on its standard output makes the exchange fail with
    [Unexpected External Program Results]; no state is stored. *)
Theorem X8_silent_child_is_malformed (h : Exec.Host) (req : Request)
    (cmd : Exec.Cmd) :
  cmd ∈ launched (snd (Server.CreateResource h req)) ->
  Exec.End_ (Exec.Run h cmd) = Exec.Exited 0 ->
  Json.skipSpace (Exec.Stdout (Exec.Run h cmd)) = EmptyString ->
  let r := fst (Server.CreateResource h req) in
  raised ResultMalformed r /\ State r = None.
Proof.
  intros Hin Hend Hblank r. subst r. unfold Server.CreateResource in *.
  pose proof (result_zero _ Hend) as Hrun.
  assert (Hd : Json.Unmarshal (Exec.Stdout (Exec.Run h cmd))
               = (GoMap.Make ∅, Some Json.SyntaxError)).
  { unfold Json.Unmarshal, Json.parse. by rewrite (parseValue_blank _ _ Hblank). }
  rewrite (Create_decoded h req cmd _ Hin Hrun), Hd. split; [|done].
  apply launched_command in Hin as (Hplan & _).
  apply raised_failed; [by apply clean_diagnostics|done].
Qed.

Lemma X8_white_space_output_witness :
  let h := Examples.host (Examples.exits 0 "  " "") in
  let req := Examples.request ["prog"] [] in
  let r := fst (Server.CreateResource h req) in
  raised ResultMalformed r /\ State r = None.
Proof.
  intros h req.
  apply (X8_silent_child_is_malformed h req
           (command h (PlanModel (ReqPlan req)) "prog" [])).
  - vm_compute. apply list_elem_of_here.
  - reflexivity.
  - reflexivity.
Defined.

(** X9: after a zero exit with an output that decodes to an object all of
    whose values are strings, Create stores the planned program, working
    directory and query as they were planned, the identity token, and the
    decoded object as the result, and adds no diagnostic. *)
Theorem X9_success_stores_inputs_and_result (h : Exec.Host) (req : Request)
    (cmd : Exec.Cmd) (g : gmap string Json.value) :
  cmd ∈ launched (snd (Server.CreateResource h req)) ->
  Exec.End_ (Exec.Run h cmd) = Exec.Exited 0 ->
  Json.Unmarshal (Exec.Stdout (Exec.Run h cmd)) = (GoMap.Make g, None) ->
  map_Forall (fun _ v => is_Some (asString v)) g ->
  let plan := PlanModel (ReqPlan req) in
  fst (Server.CreateResource h req)
  = {| State := Some {| Id := StringKnown "example-id";
                        Program := Program plan;
                        WorkingDir := WorkingDir plan;
                        Query := Query plan;
                        Result := MapKnown (omap asString g) |};
       Diagnostics := Append [] (PlanDiags (ReqPlan req)) |}.
Proof.
  intros Hin Hend Hd Hstr plan. unfold Server.CreateResource in *.
  rewrite (Create_decoded h req cmd _ Hin (result_zero _ Hend)), Hd.
  unfold MapValueFrom. rewrite bool_decide_eq_true_2 by done.
  cbn [fst snd]. by rewrite app_nil_r.
Qed.

Lemma X9_string_output_witness :
  let h := Examples.host (Examples.exits 0 Examples.stringOutput "") in
  let req := Examples.request ["prog"; ""] [("k", "v")] in
  let plan := PlanModel (ReqPlan req) in
  fst (Server.CreateResource h req)
  = {| State := Some {| Id := StringKnown "example-id";
                        Program := Program plan;
                        WorkingDir := WorkingDir plan;
                        Query := Query plan;
                        Result := MapKnown (omap asString
                                              (<[ "a"%string := Json.Str "x" ]> ∅)) |};
       Diagnostics := Append [] (PlanDiags (ReqPlan req)) |}.
Proof.
  intros h req.
  apply (X9_success_stores_inputs_and_result h req
           (command h (PlanModel (ReqPlan req)) "prog" [])).
  - vm_compute. apply list_elem_of_here.
  - reflexivity.
  - vm_compute. reflexivity.
  - refine (bool_decide_unpack _ _). vm_compute. exact I.
Defined.

(** X10: after a zero exit with the output [null] (white space around it
    allowed) the exchange succeeds: the state is stored with the null map
    as its result and no diagnostic is added. *)
Theorem X10_null_output_gives_null_result (h : Exec.Host) (req : Request)
    (cmd : Exec.Cmd) :
  cmd ∈ launched (snd (Server.CreateResource h req)) ->
  Exec.End_ (Exec.Run h cmd) = Exec.Exited 0 ->
  Json.parse (Exec.Stdout (Exec.Run h cmd)) = Some Json.Null ->
  let plan := PlanModel (ReqPlan req) in
  fst (Server.CreateResource h req)
  = {| State := Some (withResult (withId plan (StringKnown "example-id")) MapNull);
       Diagnostics := Append [] (PlanDiags (ReqPlan req)) |}.
Proof.
  intros Hin Hend Hnull plan. unfold Server.CreateResource in *.
  rewrite (Create_decoded h req cmd _ Hin (result_zero _ Hend)).
  unfold Json.Unmarshal. rewrite Hnull. cbn [MapValueFrom fst snd].
  by rewrite app_nil_r.
Qed.

Lemma X10_null_output_witness :
  let h := Examples.host (Examples.exits 0 " null " "") in
  let req := Examples.request ["prog"] [] in
  fst (Server.CreateResource h req)
  = {| State := Some (withResult (withId (PlanModel (ReqPlan req))
                                    (StringKnown "example-id")) MapNull);
       Diagnostics := Append [] (PlanDiags (ReqPlan req)) |}.
Proof.
  intros h req.
  apply (X10_null_output_gives_null_result h req
           (command h (PlanModel (ReqPlan req)) "prog" [])).
  - vm_compute. apply list_elem_of_here.
  - reflexivity.
  - vm_compute. reflexivity.
Defined.

(** ** Diagnostics and state at the end of Create *)

(** X11: with the plan decoded, Create keeps the diagnostics of the
    decoding and adds at most one diagnostic of its own, an error.  Without
    an added error the state is stored; with an error under one of the four
    titles of the resource the state is not stored. *)
Theorem X11_at_most_one_error_added (h : Exec.Host) (req : Request) :
  HasError (PlanDiags (ReqPlan req)) = false ->
  let r := fst (Server.CreateResource h req) in
  let kept := Append [] (PlanDiags (ReqPlan req)) in
  (Diagnostics r = kept /\ is_Some (State r))
  \/ (exists summary detail,
         Diagnostics r = kept ++ [NewErrorDiagnostic summary detail]
         /\ (summary ∈ [ProgramMissing; ProgramLookupFailed; ExecutionFailed;
                        ResultMalformed]
             /\ State r = None
             \/ summary = "Value Conversion Error"%string /\ is_Some (State r))).
Proof.
  intros Hplan r kept. subst r. unfold Server.CreateResource.
  pose proof (Create_exits h req Hplan) as HE. fold kept in HE.
  destruct (call (Create h req) emptyResponse) as [r events].
  cbn [fst snd] in *.
  inversion HE as [| | | |? ? ? result]; subst; unfold failed;
    cbn [Diagnostics State].
  1-4: (right; eexists _, _; split; [reflexivity|]; left; split; [|done];
        set_solver).
  destruct (MapValueFrom_diags result) as [Hd|Hd]; rewrite Hd.
  - left. rewrite app_nil_r. by split.
  - right. eexists _, _. split; [reflexivity|]. right. by split.
Qed.

Lemma X11_number_output_witness :
  let h := Examples.host (Examples.exits 0 Examples.numberOutput "") in
  let req := Examples.request ["prog"] [] in
  let r := fst (Server.CreateResource h req) in
  let kept := Append [] (PlanDiags (ReqPlan req)) in
  (Diagnostics r = kept /\ is_Some (State r))
  \/ (exists summary detail,
         Diagnostics r = kept ++ [NewErrorDiagnostic summary detail]
         /\ (summary ∈ [ProgramMissing; ProgramLookupFailed; ExecutionFailed;
                        ResultMalformed]
             /\ State r = None
             \/ summary = "Value Conversion Error"%string /\ is_Some (State r))).
Proof.
  intros h req. apply (X11_at_most_one_error_added h req). reflexivity.
Defined.

(** X12: round trip.  When the child exits with status 0 after writing
    back on its standard output the bytes it was given on its standard
    input, and the query has ASCII keys and rendered values, the stored
    result is the query as it was sent: the entries with a value that is
    not empty, each with its rendered value. *)
Theorem X12_echo_round_trip (h : Exec.Host) (req : Request) (cmd : Exec.Cmd) :
  cmd ∈ launched (snd (Server.CreateResource h req)) ->
  Exec.End_ (Exec.Run h cmd) = Exec.Exited 0 ->
  Exec.Stdout (Exec.Run h cmd) = Exec.Stdin cmd ->
  let sent := rendered h (MapElements (Query (PlanModel (ReqPlan req)))) in
  map_Forall (fun k a => isASCII k = true /\ isASCII a = true) sent ->
  (Result <$> State (fst (Server.CreateResource h req)))
  = Some (MapKnown (StringKnown <$> sent))
  /\ Diagnostics (fst (Server.CreateResource h req))
     = Append [] (PlanDiags (ReqPlan req)).
Proof.
  intros Hin Hend Hecho sent Hascii. unfold Server.CreateResource in *.
  assert (Hrun : Exec.result (Exec.Run h cmd) = (Exec.Stdin cmd, None)).
  { rewrite (result_zero _ Hend). by rewrite Hecho. }
  by rewrite (echo_round_trip h req cmd Hin Hrun Hascii).
Qed.

Lemma X12_echo_witness :
  let req := Examples.request ["prog"] [("k", "v"); ("e", "")] in
  (Result <$> State (fst (Server.CreateResource Cases.echo req)))
  = Some (MapKnown (StringKnown <$>
                      rendered Cases.echo
                        (MapElements (Query (PlanModel (ReqPlan req))))))
  /\ Diagnostics (fst (Server.CreateResource Cases.echo req))
     = Append [] (PlanDiags (ReqPlan req)).
Proof.
  intros req.
  apply (X12_echo_round_trip Cases.echo req
           (command Cases.echo (PlanModel (ReqPlan req)) "prog" [])).
  - vm_compute. apply list_elem_of_here.
  - reflexivity.
  - reflexivity.
  - refine (bool_decide_unpack _ _). vm_compute. exact I.
Defined.

(** ** Update, Read, Delete *)

Lemma UpdateResource_result prior req :
  Server.UpdateResource prior req
  = ({| State := Some (if HasError (PlanDiags (ReqPlan req)) then prior
                       else PlanModel (ReqPlan req));
        Diagnostics := Append [] (PlanDiags (ReqPlan req)) |}, []).
Proof.
  unfold Server.UpdateResource, call, Update, Plan_Get, bind,
    appendDiagnostics, returnIfHasError, stateSet.
  cbn [resp log State Diagnostics fst snd].
  rewrite HasError_Append. cbn [HasError existsb orb].
  destruct (HasError (PlanDiags (ReqPlan req))); cbn [existsb orb]; done.
Qed.

(** X13: Update launches nothing and traces nothing.  When the plan
    decodes without error it stores the planned model as it is, identity
    token and result included; when decoding reports an error the prior
    state stays. *)
Theorem X13_update_copies_the_plan (prior : execModelV0) (req : Request) :
  let r := fst (Server.UpdateResource prior req) in
  snd (Server.UpdateResource prior req) = []
  /\ Diagnostics r = Append [] (PlanDiags (ReqPlan req))
  /\ State r = Some (if HasError (PlanDiags (ReqPlan req)) then prior
                     else PlanModel (ReqPlan req)).
Proof. cbv zeta. by rewrite UpdateResource_result. Qed.

Lemma step_launches_nothing state op : launched (snd (Server.step state op)) = [].
Proof.
  destruct state as [current|]; [|done]. unfold Server.step.
  destruct op as [|req|].
  - reflexivity.
  - by rewrite UpdateResource_result.
  - reflexivity.
Qed.

(** X14: whatever Reads, Updates and Deletes follow a Create, in any
    number and order, none of them launches the child; and as long as they
    are Reads and Updates whose plan is the current state, the state stays
    what it was. *)
Theorem X14_only_create_launches (state : option execModelV0)
    (ops : list Server.Op) :
  launched (snd (Server.run state ops)) = []
  /\ (forall m,
         state = Some m ->
         Forall (fun op => op = Server.OpRead
                           \/ op = Server.OpUpdate (Server.planOf m)) ops ->
         fst (Server.run state ops) = Some m).
Proof.
  split.
  - revert state. induction ops as [|op ops IH]; intros state; [done|].
    cbn [Server.run].
    pose proof (step_launches_nothing state op) as Hs.
    destruct (Server.step state op) as [state' events]. cbn [snd] in Hs.
    specialize (IH state').
    destruct (Server.run state' ops) as [final events']. cbn [snd] in *.
    unfold launched in *. by rewrite omap_app, Hs, IH.
  - intros m -> Hall. induction Hall as [|op ops Hop _ IH]; [done|].
    cbn [Server.run].
    assert (Hstep : fst (Server.step (Some m) op) = Some m).
    { destruct Hop as [-> | ->]; [reflexivity|].
      unfold Server.step. by rewrite UpdateResource_result. }
    destruct (Server.step (Some m) op) as [state' events]. cbn [fst] in Hstep.
    subst state'.
    destruct (Server.run (Some m) ops) as [final events']. by cbn [fst] in *.
Qed.

Lemma X14_reads_and_updates_witness :
  let ops := [Server.OpRead; Server.OpUpdate (Server.planOf Cases.stored);
              Server.OpRead] in
  fst (Server.run (Some Cases.stored) ops) = Some Cases.stored.
Proof.
  intros ops.
  apply (proj2 (X14_only_create_launches (Some Cases.stored) ops) Cases.stored).
  - reflexivity.
  - constructor; [by left|]. constructor; [by right|].
    constructor; [by left|]. constructor.
Defined.

(** ** The schema *)

(** X15: the attributes of the schema are exactly the fields of the
    model under their [tfsdk] tags, each with the type of its field, so
    that a plan of the schema decodes into the model and a model encodes
    into a state of the schema; and every attribute is exactly one of
    required, optional and computed. *)
Theorem X15_schema_matches_model (name : string) (m : execModelV0) :
  match Attributes ProgramResource.Schema !! name with
  | Some a =>
    (exists v, ProgramResource.field name m = Some v
               /\ ProgramResource.typeOf v = Type_ a)
    /\ oneOfThree (Required a) (Optional a) (Computed a) = true
  | None => ProgramResource.field name m = None
  end.
Proof.
  unfold ProgramResource.Schema, ProgramResource.field. cbn [Attributes].
  rewrite !lookup_insert, lookup_empty.
  repeat case_decide; subst; cbn;
    repeat match goal with
           | |- context [String.eqb ?a ?b] =>
             destruct (String.eqb_spec a b); try congruence
           end;
    try (split; [eexists; split; reflexivity|reflexivity]); done.
Qed.

Ltac schema_in_order :=
  unfold Server.modifyPlan;
  let l := eval vm_compute in (GoMap.sorted (Attributes ProgramResource.Schema)) in
  change (GoMap.sorted (Attributes ProgramResource.Schema)) with l.

Lemma setField_same name v plan :
  ProgramResource.field name plan = Some v ->
  ProgramResource.setField name v plan = plan.
Proof.
  destruct plan as [pi pp pw pq pr].
  unfold ProgramResource.field, ProgramResource.setField, withId, withResult.
  cbn [Id Program WorkingDir Query Result].
  repeat (destruct (String.eqb name _); [by intros [= <-]|]). done.
Qed.

Lemma modify_with_RequiresReplace config state name a plan replace c s p :
  PlanModifiers a = [RequiresReplace] ->
  ProgramResource.field name config = Some c ->
  ProgramResource.field name state = Some s ->
  ProgramResource.field name plan = Some p ->
  Server.modifyAttribute config (Some state) (name, a) (plan, replace)
  = (plan, if bool_decide (p = s) then replace else replace ++ [name]).
Proof.
  intros Hm Hc Hs Hp. unfold Server.modifyAttribute, Server.valueIn.
  rewrite Hc, Hs, Hp, Hm.
  cbn [runModifiers PlanModify HasState HasPlan PlanValue StateValue negb
       NewPlanValue NeedsReplace].
  rewrite bool_decide_eq_true_2 by (by eexists). cbn [negb].
  case_bool_decide; cbn [NewPlanValue NeedsReplace]; by rewrite (setField_same _ _ _ Hp).
Qed.

Lemma modify_without_modifiers config state name a plan replace c s p :
  PlanModifiers a = [] ->
  ProgramResource.field name config = Some c ->
  ProgramResource.field name state = Some s ->
  ProgramResource.field name plan = Some p ->
  Server.modifyAttribute config (Some state) (name, a) (plan, replace)
  = (plan, replace).
Proof.
  intros Hm Hc Hs Hp. unfold Server.modifyAttribute, Server.valueIn.
  rewrite Hc, Hs, Hp, Hm. cbn [runModifiers NewPlanValue NeedsReplace].
  by rewrite (setField_same _ _ _ Hp).
Qed.

Lemma modify_id config state a plan replace :
  PlanModifiers a = [UseStateForUnknown] ->
  Server.modifyAttribute config (Some state) ("id"%string, a) (plan, replace)
  = (withId plan (plannedId config state plan), replace).
Proof.
  intros Hm. unfold Server.modifyAttribute, Server.valueIn, plannedId.
  change (ProgramResource.field "id" ?m) with (Some (VString (Id m))).
  rewrite Hm.
  cbn [runModifiers PlanModify HasState HasPlan PlanValue StateValue ConfigValue
       NewPlanValue NeedsReplace].
  destruct (IsNull (VString (Id state))); [by destruct plan|].
  destruct (IsUnknown (VString (Id plan))); cbn [negb]; [|by destruct plan].
  destruct (IsUnknown (VString (Id config))); [by destruct plan|].
  reflexivity.
Qed.

Lemma modifyPlan_update config state plan :
  Server.modifyPlan ProgramResource.Schema config (Some state) plan
  = (withId plan (plannedId config state plan),
     (if bool_decide (Program plan = Program state) then [] else ["program"%string])
     ++ (if bool_decide (Query plan = Query state) then [] else ["query"%string])
     ++ (if bool_decide (WorkingDir plan = WorkingDir state) then []
         else ["working_dir"%string])).
Proof.
  schema_in_order. cbn [fold_left].
  rewrite modify_id by reflexivity.
  erewrite (modify_with_RequiresReplace _ _ "program"); [|reflexivity..].
  erewrite (modify_with_RequiresReplace _ _ "query"); [|reflexivity..].
  erewrite (modify_without_modifiers _ _ "result"); [|reflexivity..].
  erewrite (modify_with_RequiresReplace _ _ "working_dir"); [|reflexivity..].
  f_equal. cbn [withId Program Query WorkingDir].
  repeat case_bool_decide; try reflexivity; exfalso; congruence.
Qed.

Lemma runModifiers_without_state ms t c p resp :
  runModifiers ms
    {| HasState := false; HasPlan := true; ConfigValue := c;
       StateValue := Server.nullValue t; PlanValue := p |} resp
  = resp.
Proof.
  revert p resp. induction ms as [|m ms IH]; intros p resp; [done|].
  cbn [runModifiers]. rewrite IH.
  destruct m; cbn [PlanModify HasState StateValue negb]; [|done].
  by destruct t.
Qed.

Lemma modifyPlan_create schema config plan :
  Server.modifyPlan schema config None plan = (plan, []).
Proof.
  unfold Server.modifyPlan.
  induction (GoMap.sorted (Attributes schema)) as [|[name a] l IH] using rev_ind;
    [done|].
  rewrite fold_left_app, IH. cbn [fold_left].
  unfold Server.modifyAttribute, Server.valueIn.
  destruct (ProgramResource.field name config) as [c|]; [|done].
  destruct (ProgramResource.field name plan) as [p|] eqn:Hp; [|done].
  rewrite bool_decide_eq_false_2 by (intros [? [=]]).
  rewrite runModifiers_without_state. cbn [NewPlanValue NeedsReplace].
  by rewrite (setField_same _ _ _ Hp).
Qed.

(** X16: on an update, the plan modifiers of the schema require the
    resource to be replaced exactly for the attributes among [program],
    [query] and [working_dir] whose planned value differs from the prior
    one; [id] and [result] never require it; on creation nothing does. *)
Theorem X16_changed_input_requires_replace (config state plan : execModelV0) :
  let replace := snd (Server.modifyPlan ProgramResource.Schema config
                        (Some state) plan) in
  ("program"%string ∈ replace <-> Program plan <> Program state)
  /\ ("query"%string ∈ replace <-> Query plan <> Query state)
  /\ ("working_dir"%string ∈ replace <-> WorkingDir plan <> WorkingDir state)
  /\ ("id"%string ∉ replace)
  /\ ("result"%string ∉ replace)
  /\ snd (Server.modifyPlan ProgramResource.Schema config None plan) = [].
Proof.
  cbv zeta. rewrite modifyPlan_update, modifyPlan_create. cbn [snd].
  repeat case_bool_decide; cbn [app];
    rewrite ?elem_of_cons, ?elem_of_nil; repeat split; intros;
    try done; try tauto; try (intuition congruence); try (intuition discriminate).
Qed.



(** ** Registration *)


(** ** Empty strings do not matter *)

Lemma rendered_nonBlankEntries h elems :
  rendered h (nonBlankEntries elems) = rendered h elems.
Proof.
  apply map_eq. intros k. rewrite !rendered_lookup.
  unfold nonBlankEntries. rewrite map_lookup_filter.
  destruct (elems !! k) as [v|]; [|done]. cbn.
  destruct (decide (v = blank)) as [->|Hne].
  - rewrite option_guard_False by (intros Hx; by apply Hx). reflexivity.
  - by rewrite option_guard_True.
Qed.

Lemma command_nonBlankEntries h plan1 plan2 program0 args :
  WorkingDir plan1 = WorkingDir plan2 ->
  nonBlankEntries (MapElements (Query plan1))
  = nonBlankEntries (MapElements (Query plan2)) ->
  command h plan1 program0 args = command h plan2 program0 args.
Proof.
  intros Hw Hq. unfold command. rewrite Hw, !queryLoop_rendered.
  by rewrite <- (rendered_nonBlankEntries h (MapElements (Query plan1))), Hq,
    rendered_nonBlankEntries.
Qed.

Lemma Exit_same h plan1 plan2 ds r1 e1 r2 e2 :
  programLoop h (ListElements (Program plan1)) []
  = programLoop h (ListElements (Program plan2)) [] ->
  (forall program0 args,
      command h plan1 program0 args = command h plan2 program0 args) ->
  Exit h plan1 ds r1 e1 -> Exit h plan2 ds r2 e2 ->
  outcome r1 = outcome r2 /\ e1 = e2.
Proof.
  intros Hprog Hcmd H1 H2.
  inversion H1 as [Hp|? ? ? Hp Hl|? ? ? ? Hp Hl Hr|? ? ? ? ? Hp Hl Hr Hj
                  |? ? ? ? Hp Hl Hr Hj]; subst;
    inversion H2 as [Hp'|? ? ? Hp' Hl'|? ? ? ? Hp' Hl' Hr'|? ? ? ? ? Hp' Hl' Hr' Hj'
                    |? ? ? ? Hp' Hl' Hr' Hj']; subst;
    rewrite Hprog, Hp' in Hp; try discriminate Hp;
    try (injection Hp as <- <-);
    try (rewrite Hl' in Hl; try discriminate Hl; try injection Hl as <-);
    try (rewrite Hcmd, Hr' in Hr; try discriminate Hr);
    try (rewrite Hcmd);
    try (injection Hr as <- <-); try (injection Hr as <-);
    try (rewrite Hj' in Hj; try discriminate Hj);
    try (injection Hj as <- <-); try (injection Hj as <-);
    done.
Qed.

(** X19: the empty strings of a plan do not matter.  Two plans with the
    same working directory, the same elements of [program] once the empty
    strings are left out, and the same entries of [query] once those with
    an empty string as value are left out, make Create do the same: the
    same log, so the same command if one is launched, the same
    diagnostics, and the same identity token and result in the state. *)
Theorem X19_empty_strings_do_not_matter (h : Exec.Host) (req1 req2 : Request) :
  let plan1 := PlanModel (ReqPlan req1) in
  let plan2 := PlanModel (ReqPlan req2) in
  PlanDiags (ReqPlan req1) = PlanDiags (ReqPlan req2) ->
  WorkingDir plan1 = WorkingDir plan2 ->
  nonBlank (ListElements (Program plan1)) = nonBlank (ListElements (Program plan2)) ->
  nonBlankEntries (MapElements (Query plan1))
  = nonBlankEntries (MapElements (Query plan2)) ->
  snd (Server.CreateResource h req1) = snd (Server.CreateResource h req2)
  /\ outcome (fst (Server.CreateResource h req1))
     = outcome (fst (Server.CreateResource h req2)).
Proof.
  intros plan1 plan2 Hd Hw Hp Hq. unfold Server.CreateResource.
  destruct (HasError (PlanDiags (ReqPlan req1))) eqn:Hplan.
  - rewrite (Create_plan_error h req1 Hplan).
    rewrite Hd in Hplan. rewrite (Create_plan_error h req2 Hplan).
    by rewrite Hd.
  - pose proof (Create_exits h req1 Hplan) as H1.
    rewrite Hd in Hplan. pose proof (Create_exits h req2 Hplan) as H2.
    rewrite Hd in H1.
    assert (Hprog : programLoop h (ListElements (Program plan1)) []
                    = programLoop h (ListElements (Program plan2)) []).
    { by rewrite !programLoop_app, Hp. }
    assert (Hcmd : forall program0 args,
               command h plan1 program0 args = command h plan2 program0 args).
    { intros program0 args. by apply command_nonBlankEntries. }
    destruct (Exit_same h plan1 plan2 _ _ _ _ _ Hprog Hcmd H1 H2) as [Ho He].
    by split.
Qed.

Lemma X19_gaps_witness :
  let h := Examples.host (Examples.exits 0 Examples.stringOutput "") in
  let req1 := Examples.request [""; "prog"; ""; "-x"] [("k", "v"); ("e", "")] in
  let req2 := Examples.request ["prog"; "-x"; ""] [("k", "v")] in
  snd (Server.CreateResource h req1) = snd (Server.CreateResource h req2)
  /\ outcome (fst (Server.CreateResource h req1))
     = outcome (fst (Server.CreateResource h req2)).
Proof.
  intros h req1 req2.
  apply (X19_empty_strings_do_not_matter h req1 req2).
  - reflexivity.
  - reflexivity.
  - vm_compute. reflexivity.
  - vm_compute. reflexivity.
Defined.
